(** * Gangotri glacier dashboard: tolerant loading and page rendering

    A shallow embedding of [dashboard.py].  The script is one top-level
    Streamlit program: it emits a fixed header and sidebar, calls
    [load_model_data], dispatches on the selected [page] through an
    [if]/[elif] chain, and emits a footer.

    - Python exceptions are modelled by the [result] type.
    - Streamlit's element queue is modelled by state passing: a script
      fragment is a function from the blocks emitted so far to the blocks
      emitted afterwards together with a [result].
    - The [dict] returned by the loader is a [gmap string DataFrame].
    - pandas is outside the repository.  A table is a row count with an
      ordered association list of named, typed columns; [read_csv]'s
      parser is a parameter of the loader.
    - [st.image] on a local path opens and decodes the file during the
      run; the image decoder is a parameter of the renderer.
    - The loader's cache and the mapping as a shared mutable object are
      modelled separately, by [rerun] and by the module [Session]. *)

From Stdlib Require Import String Ascii List QArith ZArith Lia DecimalString.
From stdpp Require Import gmap strings list fin_maps.

Local Open Scope string_scope.

(** ** Exceptions and results *)

Inductive exn :=
| FileNotFoundError
| IsADirectoryError
| PermissionError
| ParserError
| EmptyDataError
| KeyError
| IndexError
| TypeError
| MediaFileStorageError
| UnidentifiedImageError.

Inductive result (A : Type) :=
| Ok (a : A)
| Raise (e : exn).
Arguments Ok {A} a.
Arguments Raise {A} e.

#[global] Instance result_ret : MRet result := fun _ a => Ok a.
#[global] Instance result_bind : MBind result := fun _ _ f m =>
  match m with
  | Ok a => f a
  | Raise e => Raise e
  end.

(** [try: body except: handler]; the bare [except:] of the source catches
    every exception. *)
Definition try_except {A} (body : result A) (handler : exn -> result A) : result A :=
  match body with
  | Ok a => Ok a
  | Raise e => handler e
  end.

Definition raises {A} (r : result A) : Prop := exists e, r = Raise e.

(** ** Tables *)

(** A column is numeric (int64/float64, a missing cell is NaN) or holds
    strings (dtype object).  Numbers are exact rationals: binary rounding
    of floats is not modelled. *)
Inductive Series :=
| NumCol (xs : list (option Q))
| StrCol (xs : list (option string)).

Record DataFrame := mkDataFrame {
  df_len : nat;                          (* len(df): number of rows *)
  df_data : list (string * Series)       (* columns, in file order *)
}.

Definition len (df : DataFrame) : nat := df_len df.

(** [df.columns] *)
Definition columns (df : DataFrame) : list string := (df_data df).*1.

(** ['c' in df.columns] *)
Definition has_column (c : string) (df : DataFrame) : bool :=
  bool_decide (c ∈ columns df).

(** [df.columns[i]] for a non-negative literal [i]; out of range raises. *)
Definition column_at (df : DataFrame) (i : nat) : result string :=
  match columns df !! i with
  | Some c => Ok c
  | None => Raise IndexError
  end.

Fixpoint assoc (c : string) (l : list (string * Series)) : option Series :=
  match l with
  | [] => None
  | (k, s) :: r => if String.eqb c k then Some s else assoc c r
  end.

(** [df['c']] *)
Definition getitem (df : DataFrame) (c : string) : result Series :=
  match assoc c (df_data df) with
  | Some s => Ok s
  | None => Raise KeyError
  end.

Definition series_len (s : Series) : nat :=
  match s with
  | NumCol xs => length xs
  | StrCol xs => length xs
  end.

(** What [read_csv] produces: distinct column names, every column as long
    as the index. *)
Definition well_formed (df : DataFrame) : Prop :=
  NoDup (columns df) /\ Forall (fun cs => series_len cs.2 = df_len df) (df_data df).

Fixpoint dedup_by {A} (eqb : A -> A -> bool) (l : list A) : list A :=
  match l with
  | [] => []
  | x :: r => if existsb (eqb x) r then dedup_by eqb r else x :: dedup_by eqb r
  end.

(** [Series.nunique()]: distinct values, missing cells excluded. *)
Definition nunique (s : Series) : nat :=
  match s with
  | NumCol xs => length (dedup_by Qeq_bool (omap id xs))
  | StrCol xs => length (dedup_by String.eqb (omap id xs))
  end.

Definition Qsum (l : list Q) : Q := fold_right Qplus 0%Q l.

(** [Series.mean()]: missing cells are skipped; the mean of no value is
    NaN ([None]); a column holding strings raises. *)
Definition mean (s : Series) : result (option Q) :=
  match s with
  | NumCol xs =>
      match omap id xs with
      | [] => Ok None
      | vs => Ok (Some (Qsum vs / inject_Z (Z.of_nat (length vs)))%Q)
      end
  | StrCol xs =>
      match omap id xs with
      | [] => Ok None
      | _ => Raise TypeError
      end
  end.

(** ** The dataset loader *)

(** What sits at a path. *)
Inductive node :=
| File (content : string)
| Unreadable
| Directory.

(** [Path(a) / b] *)
Definition path_join (a b : string) : string := a ++ "/" ++ b.
Infix "//" := path_join (at level 40, left associativity).

(** [Path.exists()] *)
Definition path_exists (fs : gmap string node) (p : string) : bool :=
  bool_decide (is_Some (fs !! p)).

Definition models_dir : string := "models".
Definition datasets_dir : string := "datasets".

Section Loader.
(** The table parser behind [pd.read_csv]. *)
Variable parse_csv : string -> result DataFrame.

Definition read_csv (fs : gmap string node) (p : string) : result DataFrame :=
  match fs !! p with
  | Some (File content) => parse_csv content
  | Some Unreadable => Raise PermissionError
  | Some Directory => Raise IsADirectoryError
  | None => Raise FileNotFoundError
  end.

(** One [try: if p.exists(): data_dict[key] = pd.read_csv(p) except: pass]
    block acting on [data_dict]. *)
Definition try_load (fs : gmap string node) (key p : string)
    (data_dict : gmap string DataFrame) : result (gmap string DataFrame) :=
  try_except
    (if path_exists fs p
     then df ← read_csv fs p; mret (<[key := df]> data_dict)
     else mret data_dict)
    (fun _ => mret data_dict).

Definition load_model_data (fs : gmap string node) : result (gmap string DataFrame) :=
  let data_dict : gmap string DataFrame := ∅ in
  data_dict ← try_load fs "DEM" (datasets_dir // "DEM" // "data.csv") data_dict;
  data_dict ← try_load fs "Sentinel1" (models_dir // "sentinel1_data.csv") data_dict;
  data_dict ← try_load fs "Sentinel2" (models_dir // "sentinel2_data.csv") data_dict;
  mret data_dict.

(** The table the loader can obtain from one path, if any. *)
Definition loadable (fs : gmap string node) (p : string) : option DataFrame :=
  match fs !! p with
  | Some (File content) =>
      match parse_csv content with
      | Ok df => Some df
      | Raise _ => None
      end
  | _ => None
  end.

(** The dictionary the loader returns, in closed form. *)
Definition loaded (fs : gmap string node) : gmap string DataFrame :=
  let add (key p : string) (d : gmap string DataFrame) :=
    match loadable fs p with
    | Some df => <[key := df]> d
    | None => d
    end in
  add "Sentinel2" "models/sentinel2_data.csv"
    (add "Sentinel1" "models/sentinel1_data.csv"
       (add "DEM" "datasets/DEM/data.csv" ∅)).
End Loader.

(** ** Display blocks *)

(** The value shown by [st.metric].  [VFixed1 m suffix] is the f-string
    [f"{m:.1f}suffix"] of a float [m] ([None] is NaN); the decimal
    rendering of the float is left to the presentation layer. *)
Inductive MetricValue :=
| VStr (s : string)
| VInt (n : nat)
| VFixed1 (m : option Q) (suffix : string).

Inductive ChartSpec :=
| Histogram (title : string) (x : Series) (nbinsx : nat)
| Scatter (title : string) (frame : DataFrame) (x y : string)
    (color : option string) (hlines vlines : list Q)
| StaticChart (kind title : string).

(** One element appended to the page.  Long literal texts of the source are
    represented by their first non-blank line, HTML literals by their CSS
    class and headline.  Layout containers ([st.columns], [st.tabs]) only
    position the elements emitted inside them and are not elements. *)
Inductive Block :=
| Markdown (text : string)
| Title (text : string)
| Html (text : string)
| InfoBox (text : string)
| WarningBox (text : string)
| Metric (label : string) (value : MetricValue) (delta : option string)
| PlotlyChart (spec : ChartSpec)
| FoliumMap (lat lon : Q) (zoom : nat) (radius : Z)
| Dataframe (name : string)
| Image (src caption : string)
| Radio (label : string) (options : list string)
| Selectbox (label : string) (options : list string)
| Sidebar (b : Block).

Definition is_info (b : Block) : bool :=
  match b with InfoBox _ => true | _ => false end.
Definition is_chart (b : Block) : bool :=
  match b with PlotlyChart _ => true | _ => false end.
Definition is_metric (b : Block) : bool :=
  match b with Metric _ _ _ => true | _ => false end.

(** ** The script monad: element queue and exceptions *)

Definition St (A : Type) : Type := list Block -> list Block * result A.

#[global] Instance St_ret : MRet St := fun _ a out => (out, Ok a).
#[global] Instance St_bind : MBind St := fun _ _ f m out =>
  match m out with
  | (out', Ok a) => f a out'
  | (out', Raise e) => (out', Raise e)
  end.

(** A [st.*] call appends one element. *)
Definition emit (b : Block) : St unit := fun out => ((out ++ [b])%list, Ok tt).

(** A computation that touches no element. *)
Definition lift {A} (r : result A) : St A := fun out => (out, r).

Definition emit_all (bs : list Block) : St unit :=
  foldr (fun b k => emit b ;; k) (mret tt) bs.

(** Run a script from an empty page. *)
Definition run {A} (m : St A) : list Block * result A := m [].

(** [st.image(path, caption=...)] on a local path (lines 503, 514, 527,
    538).  The file is opened and decoded during the run: a path that
    cannot be opened (missing, a directory, unreadable) raises
    MediaFileStorageError, and bytes the image decoder rejects raise
    UnidentifiedImageError.  [is_image] is the decoder's verdict on the
    bytes. *)
Definition st_image (is_image : string -> bool) (fs : gmap string node)
    (path caption : string) : St unit :=
  match fs !! path with
  | Some (File content) =>
      if is_image content then emit (Image path caption)
      else lift (Raise UnidentifiedImageError)
  | Some Unreadable | Some Directory | None => lift (Raise MediaFileStorageError)
  end.

(** ** Helpers for source expressions *)

(** ['k' in data] *)
Definition contains_key (k : string) (data : gmap string DataFrame) : bool :=
  bool_decide (is_Some (data !! k)).

(** [data['k']] *)
Definition subscript (data : gmap string DataFrame) (k : string) : result DataFrame :=
  match data !! k with
  | Some df => Ok df
  | None => Raise KeyError
  end.

(** ['k' in data and len(data['k']) > 0] *)
Definition available (k : string) (data : gmap string DataFrame) : result bool :=
  if contains_key k data
  then df ← subscript data k; mret (0 <? len df)%nat
  else mret false.

(** [needle in hay] on strings *)
Fixpoint substring_in (needle hay : string) : bool :=
  if String.prefix needle hay then true
  else match hay with
       | EmptyString => false
       | String _ rest => substring_in needle rest
       end.

Fixpoint commas (rev_digits : list ascii) (k : nat) : list ascii :=
  match rev_digits with
  | [] => []
  | d :: r =>
      if (k =? 3)%nat then ","%char :: d :: commas r 1
      else d :: commas r (S k)
  end.

(** [f"{n:,}"] *)
Definition format_thousands (n : nat) : string :=
  string_of_list_ascii
    (rev (commas (rev (list_ascii_of_string (NilEmpty.string_of_uint (Nat.to_uint n)))) 0)).

(** [name if name in df.columns else df.columns[i]] *)
Definition column_or (name : string) (df : DataFrame) (i : nat) : result string :=
  if has_column name df then mret name else column_at df i.

(** ['class' if 'class' in df.columns else None] *)
Definition color_of (df : DataFrame) : option string :=
  if has_column "class" df then Some "class" else None.

(** ** The script *)

Definition pages : list string :=
  ["Overview"; "Data Analysis"; "Satellite Imagery"; "Machine Learning";
   "Results & Insights"; "About"].

Definition modalities : list string :=
  ["Digital Elevation Model (DEM)"; "Sentinel-1 SAR"; "Sentinel-2 Optical";
   "Landsat-8 Thermal"].

(** Lines 26-146: styling, title, sidebar navigation. *)
Definition header_blocks : list Block :=
  [ Html "<style>";
    Markdown "# Gangotri Glacier Monitoring Dashboard";
    Markdown "### *Multi-Modal Remote Sensing Analysis (2000-2023)*";
    Markdown "---";
    Sidebar (Image "https://images.unsplash.com/photo-1506905925346-21bda4d32df4?w=400&h=300&fit=crop"
               "Himalayan Glacier");
    Sidebar (Title "Navigation");
    Sidebar (Radio "Select Section:" pages);
    Sidebar (Markdown "---");
    Sidebar (Html "study-area-box: Study Area") ].

(** Lines 981-991. *)
Definition footer_blocks : list Block :=
  [ Markdown "---";
    Html "Gangotri Glacier Monitoring Dashboard" ].

(** *** Overview (lines 183-305) *)
Definition page_overview : St unit :=
  emit_all
    [ Markdown "## Welcome to the Gangotri Glacier Analysis Project";
      Html "metric-card: 23 Years";
      Html "metric-card: 4 Satellites";
      Html "metric-card: 3-4 Classes";
      Markdown "---";
      Markdown "## Study Area Location";
      FoliumMap (3092 # 100) (7908 # 100) 11 15000%Z;
      Markdown "---";
      Markdown "## Project Goals";
      Markdown "- **Monitor** glacier retreat and elevation changes";
      Markdown "## Why This Matters";
      Html "study-area-box: Gangotri Glacier feeds the Ganges River";
      Markdown "## Data Sources";
      PlotlyChart (StaticChart "timeline" "Data Collection Timeline");
      Markdown "### Technology Stack";
      Markdown "- **Google Earth Engine**: Cloud-based satellite data processing" ].

(** *** Data Analysis, DEM (lines 321-375) *)
Definition view_dem (data : gmap string DataFrame) : St unit :=
  emit (Markdown "### Elevation Change Analysis (2000-2011)") ;;
  emit (Markdown "**What we measure:**") ;;
  (ok ← lift (available "DEM" data);
   if ok : bool then
     df ← lift (subscript data "DEM");
     if has_column "elev_change" df then
       x ← lift (getitem df "elev_change");
       emit (PlotlyChart
               (Histogram "Elevation Change Distribution (2000-2011)" x 50))
     else
       emit (WarningBox "Elevation change data not available in the dataset.")
   else
     emit (InfoBox "Run DEM.ipynb notebook to generate data for visualization")) ;;
  emit (Markdown "### Statistics") ;;
  (ok ← lift (available "DEM" data);
   if ok : bool then
     df ← lift (subscript data "DEM");
     emit (Metric "Total Samples" (VStr (format_thousands (len df))) None) ;;
     (if has_column "class" df then
        s ← lift (getitem df "class");
        emit (Metric "Classes Identified" (VInt (nunique s)) None)
      else mret tt) ;;
     (if has_column "slope" df then
        s ← lift (getitem df "slope");
        m ← lift (mean s);
        emit (Metric "Avg Slope" (VFixed1 m "°") None)
      else mret tt)
   else mret tt) ;;
  emit (Markdown "### Classification") ;;
  emit (Markdown "- **Class 0**: Major Thinning").

(** The statistics column shared by the two Sentinel views. *)
Definition sentinel_statistics (key : string) (data : gmap string DataFrame) : St unit :=
  ok ← lift (available key data);
  if ok : bool then
    df ← lift (subscript data key);
    emit (Metric "Total Samples" (VStr (format_thousands (len df))) None) ;;
    (if has_column "class" df then
       s ← lift (getitem df "class");
       emit (Metric "Classes" (VInt (nunique s)) None)
     else mret tt)
  else mret tt.

(** *** Data Analysis, Sentinel-1 (lines 377-421) *)
Definition view_sentinel1 (data : gmap string DataFrame) : St unit :=
  emit (Markdown "### SAR Backscatter Analysis (2021)") ;;
  emit (Markdown "**What we measure:**") ;;
  (ok ← lift (available "Sentinel1" data);
   if ok : bool then
     df ← lift (subscript data "Sentinel1");
     x ← lift (column_or "VV_1" df 0);
     y ← lift (column_or "VV_2" df 1);
     emit (PlotlyChart
             (Scatter "Winter vs Summer Backscatter" df x y (color_of df) [] []))
   else
     emit (InfoBox "Run Sentinel1.ipynb notebook to generate data for visualization")) ;;
  emit (Markdown "### Statistics") ;;
  sentinel_statistics "Sentinel1" data ;;
  emit (Markdown "### SAR Bands") ;;
  emit (Markdown "- **VV**: Vertical transmit/receive").

(** *** Data Analysis, Sentinel-2 (lines 423-470) *)
Definition view_sentinel2 (data : gmap string DataFrame) : St unit :=
  emit (Markdown "### Optical Spectral Analysis (2018-2023)") ;;
  emit (Markdown "**What we measure:**") ;;
  (ok ← lift (available "Sentinel2" data);
   if ok : bool then
     df ← lift (subscript data "Sentinel2");
     x ← lift (column_or "NDSI_2023" df 0);
     y ← lift (column_or "NDVI_2023" df 1);
     emit (PlotlyChart
             (Scatter "NDVI vs NDSI (2023)" df x y (color_of df) [0%Q] [(4 # 10)%Q]))
   else
     emit (InfoBox "Run Sentinel2.ipynb notebook to generate data for visualization")) ;;
  emit (Markdown "### Statistics") ;;
  sentinel_statistics "Sentinel2" data ;;
  emit (Markdown "### Indices") ;;
  emit (Markdown "- **NDSI > 0.4**: Snow/Ice").

(** *** Data Analysis, Landsat-8 (lines 472-485) *)
Definition view_landsat8 : St unit :=
  emit_all
    [ Markdown "### Thermal Analysis (2017-2023)";
      Markdown "**What we measure:**";
      InfoBox "Landsat-8 analysis provides thermal insights into glacier melt patterns" ].

(** *** Data Analysis (lines 310-485) *)
Definition page_data_analysis (modality : string) (data : gmap string DataFrame) : St unit :=
  emit (Markdown "## Multi-Modal Data Analysis") ;;
  emit (Selectbox "Select Data Source:" modalities) ;;
  emit (Markdown "---") ;;
  if substring_in "DEM" modality then view_dem data
  else if substring_in "Sentinel-1" modality then view_sentinel1 data
  else if substring_in "Sentinel-2" modality then view_sentinel2 data
  else if substring_in "Landsat-8" modality then view_landsat8
  else mret tt.

(** *** Satellite Imagery (lines 490-573) *)
Definition page_satellite_imagery (is_image : string -> bool)
    (fs : gmap string node) : St unit :=
  emit (Markdown "## Satellite Data Visualization") ;;
  emit (Markdown "Our project uses four different types of satellite data, each revealing") ;;
  emit (Markdown "### Digital Elevation Model") ;;
  st_image is_image fs "images/dem.jpg" "DEM shows elevation changes" ;;
  emit (Markdown "**Purpose:** Measure how glacier thickness changes over time") ;;
  emit (Markdown "### Sentinel-1 SAR") ;;
  st_image is_image fs "images/sentinel1.png" "SAR penetrates clouds" ;;
  emit (Markdown "**Purpose:** Monitor surface roughness year-round") ;;
  emit (Markdown "### Sentinel-2 Optical") ;;
  st_image is_image fs "images/sentinel2.png" "True color satellite image" ;;
  emit (Markdown "**Purpose:** Map snow cover and vegetation") ;;
  emit (Markdown "### Landsat-8 Thermal") ;;
  st_image is_image fs "images/landsat.png" "Thermal infrared shows temperature" ;;
  emit (Markdown "**Purpose:** Measure surface temperature") ;;
  emit (Markdown "---") ;;
  emit (Markdown "## Data Processing Pipeline") ;;
  emit (PlotlyChart (StaticChart "sankey" "Data Processing Pipeline")).

(** *** Machine Learning (lines 578-693) *)
Definition page_machine_learning : St unit :=
  emit_all
    [ Markdown "## Machine Learning Models";
      Markdown "We use artificial intelligence to automatically classify glacier zones based on";
      Markdown "### Model Performance Comparison";
      PlotlyChart (StaticChart "bar" "Classification Accuracy by Model and Dataset");
      Markdown "### Random Forest";
      Markdown "**How it works:** Like asking many experts and taking a vote";
      Markdown "### Support Vector Machine";
      Markdown "**How it works:** Finds the best boundary between different classes";
      Markdown "### K-Nearest Neighbors";
      Markdown "**How it works:** Classifies based on similar nearby samples";
      Markdown "---";
      Markdown "### Feature Importance Analysis";
      PlotlyChart (StaticChart "bar" "DEM Feature Importance");
      InfoBox "**Slope** is the most important feature - steeper areas show more elevation change";
      PlotlyChart (StaticChart "bar" "Optical Feature Importance");
      InfoBox "**NDSI Change** is key - shows how snow/ice extent has changed over time";
      PlotlyChart (StaticChart "bar" "Thermal Feature Importance");
      InfoBox "**Recent LST** most important - current temperature drives classification" ].

(** *** Results & Insights (lines 698-890) *)
Definition page_results_insights : St unit :=
  emit_all
    [ Markdown "## Key Findings & Insights";
      Metric "Elevation Change" (VStr "-5 to -15m") (Some "2000-2011");
      Metric "Temperature Increase" (VStr "+1-2°C") (Some "2017-2023");
      Metric "Snow Cover Decline" (VStr "-15%") (Some "2018-2023");
      Metric "Data Points Analyzed" (VStr "3,000+") (Some "High confidence");
      Markdown "---";
      Markdown "### Timeline of Observed Changes";
      PlotlyChart (StaticChart "scatter" "Key Observations Timeline (2000-2023)");
      Markdown "---";
      Markdown "### What We Confirmed";
      Html "study-area-box: 1. Glacier Retreat is Real";
      Markdown "### What We Discovered";
      Html "study-area-box: 1. Seasonal Variations";
      Markdown "---";
      Markdown "### Impact Assessment";
      PlotlyChart (StaticChart "bar" "Impact Assessment");
      Markdown "---";
      Markdown "### Future Directions";
      Markdown "#### Research";
      Markdown "- Extend analysis to more glaciers";
      Markdown "#### Communication";
      Markdown "- Share findings with policymakers";
      Markdown "#### Action";
      Markdown "- Support water management planning" ].

(** *** About (lines 895-979) *)
Definition page_about : St unit :=
  emit_all
    [ Markdown "## About This Project";
      Markdown "### Project Information";
      Markdown "**Project Title:** Multi-Modal Glacier Analysis Using Remote Sensing and Machine Learning";
      Markdown "### Technology Stack";
      Markdown "- **Platform:** Google Earth Engine";
      Markdown "### Dataset Summary";
      Dataframe "dataset_stats";
      Markdown "### Resources";
      Markdown "- [Google Earth Engine](https://earthengine.google.com/)";
      Markdown "### Project Files";
      Markdown "- `DEM.ipynb` - Elevation analysis";
      Markdown "---";
      Markdown "### Acknowledgments";
      InfoBox "This project uses freely available satellite data from:";
      Markdown "### Contact";
      Markdown "For questions, collaborations, or more information about this project," ].

(** *** Page dispatch (lines 183-979): an [if]/[elif] chain without [else] *)
Definition render (is_image : string -> bool) (fs : gmap string node)
    (page modality : string) (data : gmap string DataFrame) : St unit :=
  if String.eqb page "Overview" then page_overview
  else if String.eqb page "Data Analysis" then page_data_analysis modality data
  else if String.eqb page "Satellite Imagery" then page_satellite_imagery is_image fs
  else if String.eqb page "Machine Learning" then page_machine_learning
  else if String.eqb page "Results & Insights" then page_results_insights
  else if String.eqb page "About" then page_about
  else mret tt.

(** *** The whole script, top to bottom *)
Definition dashboard (parse_csv : string -> result DataFrame)
    (is_image : string -> bool)
    (fs : gmap string node) (page modality : string) : St unit :=
  emit_all header_blocks ;;
  data ← lift (load_model_data parse_csv fs);
  render is_image fs page modality data ;;
  emit_all footer_blocks.

(** *** Reruns and the loader's cache

    [@st.cache_data] (line 149): [load_model_data] takes no argument, so
    its cache holds at most one entry.  The first call in a process runs
    the body and stores the mapping it returns; every later call returns
    the stored mapping without running the body, hence without looking at
    the filesystem. *)
Definition cached_load_model_data (parse_csv : string -> result DataFrame)
    (fs : gmap string node) (cache : option (gmap string DataFrame))
  : result (gmap string DataFrame) * option (gmap string DataFrame) :=
  match cache with
  | Some data_dict => (Ok data_dict, Some data_dict)
  | None =>
      match load_model_data parse_csv fs with
      | Ok data_dict => (Ok data_dict, Some data_dict)
      | Raise e => (Raise e, None)
      end
  end.

(** One run of the script in a process whose cache is [cache]: what the
    page shows and how the run ends, and the cache afterwards. *)
Definition rerun (parse_csv : string -> result DataFrame)
    (is_image : string -> bool) (fs : gmap string node)
    (page modality : string) (cache : option (gmap string DataFrame))
  : (list Block * result unit) * option (gmap string DataFrame) :=
  let '(loaded_data, cache') := cached_load_model_data parse_csv fs cache in
  (run (emit_all header_blocks ;;
        data ← lift loaded_data;
        render is_image fs page modality data ;;
        emit_all footer_blocks),
   cache').

(** ** The mapping as a shared mutable object

    In the script, [data] is a Python dict that every view reaches through
    the same reference.  Here the dict is part of the state a script
    fragment runs in, next to the element queue: the page code is written
    once more over this state, each ['k' in data] and [data['k']] being a
    read of it. *)
Module Session.

Record state := State {
  mapping : gmap string DataFrame;     (* the dict [data] *)
  queue : list Block                   (* the elements emitted so far *)
}.

Definition Sm (A : Type) : Type := state -> state * result A.

#[global] Instance Sm_ret : MRet Sm := fun _ a s => (s, Ok a).
#[global] Instance Sm_bind : MBind Sm := fun _ _ f m s =>
  match m s with
  | (s', Ok a) => f a s'
  | (s', Raise e) => (s', Raise e)
  end.

(** A fragment that has no access to the mapping. *)
Definition on_queue {A} (m : St A) : Sm A := fun s =>
  let '(q, r) := m (queue s) in (State (mapping s) q, r).

Definition emit (b : Block) : Sm unit := on_queue (emit b).

Definition lift {A} (r : result A) : Sm A := fun s => (s, r).

(** ['k' in data] *)
Definition contains_key (k : string) : Sm bool := fun s =>
  (s, Ok (bool_decide (is_Some (mapping s !! k)))).

(** [data['k']] *)
Definition subscript (k : string) : Sm DataFrame := fun s =>
  (s, match mapping s !! k with
      | Some df => Ok df
      | None => Raise KeyError
      end).

(** [data['k'] = df]: the assignment a script could make; the loader makes
    it on its own dict, the page code never does. *)
Definition setitem (k : string) (df : DataFrame) : Sm unit := fun s =>
  (State (<[k := df]> (mapping s)) (queue s), Ok tt).

(** ['k' in data and len(data['k']) > 0] *)
Definition available (k : string) : Sm bool :=
  c ← contains_key k;
  if c : bool then df ← subscript k; mret (0 <? len df)%nat
  else mret false.

(** Data Analysis, DEM (lines 321-375) *)
Definition view_dem : Sm unit :=
  emit (Markdown "### Elevation Change Analysis (2000-2011)") ;;
  emit (Markdown "**What we measure:**") ;;
  (ok ← available "DEM";
   if ok : bool then
     df ← subscript "DEM";
     if has_column "elev_change" df then
       x ← lift (getitem df "elev_change");
       emit (PlotlyChart
               (Histogram "Elevation Change Distribution (2000-2011)" x 50))
     else
       emit (WarningBox "Elevation change data not available in the dataset.")
   else
     emit (InfoBox "Run DEM.ipynb notebook to generate data for visualization")) ;;
  emit (Markdown "### Statistics") ;;
  (ok ← available "DEM";
   if ok : bool then
     df ← subscript "DEM";
     emit (Metric "Total Samples" (VStr (format_thousands (len df))) None) ;;
     (if has_column "class" df then
        s ← lift (getitem df "class");
        emit (Metric "Classes Identified" (VInt (nunique s)) None)
      else mret tt) ;;
     (if has_column "slope" df then
        s ← lift (getitem df "slope");
        m ← lift (mean s);
        emit (Metric "Avg Slope" (VFixed1 m "°") None)
      else mret tt)
   else mret tt) ;;
  emit (Markdown "### Classification") ;;
  emit (Markdown "- **Class 0**: Major Thinning").

Definition sentinel_statistics (key : string) : Sm unit :=
  ok ← available key;
  if ok : bool then
    df ← subscript key;
    emit (Metric "Total Samples" (VStr (format_thousands (len df))) None) ;;
    (if has_column "class" df then
       s ← lift (getitem df "class");
       emit (Metric "Classes" (VInt (nunique s)) None)
     else mret tt)
  else mret tt.

(** Data Analysis, Sentinel-1 (lines 377-421) *)
Definition view_sentinel1 : Sm unit :=
  emit (Markdown "### SAR Backscatter Analysis (2021)") ;;
  emit (Markdown "**What we measure:**") ;;
  (ok ← available "Sentinel1";
   if ok : bool then
     df ← subscript "Sentinel1";
     x ← lift (column_or "VV_1" df 0);
     y ← lift (column_or "VV_2" df 1);
     emit (PlotlyChart
             (Scatter "Winter vs Summer Backscatter" df x y (color_of df) [] []))
   else
     emit (InfoBox "Run Sentinel1.ipynb notebook to generate data for visualization")) ;;
  emit (Markdown "### Statistics") ;;
  sentinel_statistics "Sentinel1" ;;
  emit (Markdown "### SAR Bands") ;;
  emit (Markdown "- **VV**: Vertical transmit/receive").

(** Data Analysis, Sentinel-2 (lines 423-470) *)
Definition view_sentinel2 : Sm unit :=
  emit (Markdown "### Optical Spectral Analysis (2018-2023)") ;;
  emit (Markdown "**What we measure:**") ;;
  (ok ← available "Sentinel2";
   if ok : bool then
     df ← subscript "Sentinel2";
     x ← lift (column_or "NDSI_2023" df 0);
     y ← lift (column_or "NDVI_2023" df 1);
     emit (PlotlyChart
             (Scatter "NDVI vs NDSI (2023)" df x y (color_of df) [0%Q] [(4 # 10)%Q]))
   else
     emit (InfoBox "Run Sentinel2.ipynb notebook to generate data for visualization")) ;;
  emit (Markdown "### Statistics") ;;
  sentinel_statistics "Sentinel2" ;;
  emit (Markdown "### Indices") ;;
  emit (Markdown "- **NDSI > 0.4**: Snow/Ice").

(** Data Analysis (lines 310-485) *)
Definition page_data_analysis (modality : string) : Sm unit :=
  emit (Markdown "## Multi-Modal Data Analysis") ;;
  emit (Selectbox "Select Data Source:" modalities) ;;
  emit (Markdown "---") ;;
  if substring_in "DEM" modality then view_dem
  else if substring_in "Sentinel-1" modality then view_sentinel1
  else if substring_in "Sentinel-2" modality then view_sentinel2
  else if substring_in "Landsat-8" modality then on_queue view_landsat8
  else mret tt.

(** Page dispatch (lines 183-979); the branches that never mention [data]
    are the fragments of the script proper. *)
Definition render (is_image : string -> bool) (fs : gmap string node)
    (page modality : string) : Sm unit :=
  if String.eqb page "Overview" then on_queue page_overview
  else if String.eqb page "Data Analysis" then page_data_analysis modality
  else if String.eqb page "Satellite Imagery" then
    on_queue (page_satellite_imagery is_image fs)
  else if String.eqb page "Machine Learning" then on_queue page_machine_learning
  else if String.eqb page "Results & Insights" then on_queue page_results_insights
  else if String.eqb page "About" then on_queue page_about
  else mret tt.

(** A fragment leaves the mapping as it found it, and what it appends to
    the queue and how it ends is decided by the mapping alone. *)
Definition read_only {A} (m : Sm A) : Prop :=
  forall data : gmap string DataFrame, exists (bs : list Block) (r : result A),
    forall q, m (State data q) = (State data (q ++ bs)%list, r).

End Session.

(** ** Notions used by the statements *)

(** The three logical datasets and their conventional paths, as written
    in [load_model_data]. *)
Definition dataset_files : list (string * string) :=
  [ ("DEM", datasets_dir // "DEM" // "data.csv");
    ("Sentinel1", models_dir // "sentinel1_data.csv");
    ("Sentinel2", models_dir // "sentinel2_data.csv") ].

(** A script fragment only appends to the element queue, and what it
    appends and how it ends do not depend on what is already there. *)
Definition appends {A} (m : St A) : Prop :=
  forall out, m out = ((out ++ (m []).1)%list, (m []).2).

(** The Data Analysis page under [modality] consults the entry [key] of the
    mapping: changing that entry alone can change what is rendered. *)
Definition consults (modality key : string) : Prop :=
  exists (is_image : string -> bool) (fs : gmap string node)
         (m1 m2 : gmap string DataFrame),
    (forall k, k <> key -> m1 !! k = m2 !! k) /\
    run (render is_image fs "Data Analysis" modality m1)
    <> run (render is_image fs "Data Analysis" modality m2).

Definition is_warning (b : Block) : bool :=
  match b with WarningBox _ => true | _ => false end.

(** The blocks every Data Analysis page starts with (lines 311-319). *)
Definition data_analysis_intro : list Block :=
  [ Markdown "## Multi-Modal Data Analysis";
    Selectbox "Select Data Source:" modalities;
    Markdown "---" ].

(** The optional metric on the number of classes of a table. *)
Definition class_metric (label : string) (df : DataFrame) : list Block :=
  match getitem df "class" with
  | Ok s => [Metric label (VInt (nunique s)) None]
  | Raise _ => []
  end.

(** A dataset the views treat as not available: missing or without rows. *)
Definition unavailable (key : string) (data : gmap string DataFrame) : Prop :=
  data !! key = None \/ exists df, data !! key = Some df /\ len df = 0%nat.

(** The three modalities backed by a dataset, with the key of the dataset
    and the notebook named by the placeholder. *)
Definition dataset_views : list (string * string * string) :=
  [ ("Digital Elevation Model (DEM)", "DEM", "DEM");
    ("Sentinel-1 SAR", "Sentinel1", "Sentinel1");
    ("Sentinel-2 Optical", "Sentinel2", "Sentinel2") ].

(** The two scatter views: modality, key of the dataset, named x-axis and
    y-axis columns. *)
Definition scatter_views : list (string * string * string * string) :=
  [ ("Sentinel-1 SAR", "Sentinel1", "VV_1", "VV_2");
    ("Sentinel-2 Optical", "Sentinel2", "NDSI_2023", "NDVI_2023") ].

(** The blocks of a page that stand for its main content. *)
Definition is_main (b : Block) : bool := is_chart b || is_warning b || is_info b.

(** The substrings the modality dispatch tests for, in the order of the
    [if]/[elif] chain (lines 321, 377, 423, 472). *)
Definition modality_markers : list string :=
  ["DEM"; "Sentinel-1"; "Sentinel-2"; "Landsat-8"].

(** [needle] occurs in [hay]. *)
Definition occurs_in (needle hay : string) : Prop :=
  exists pre post : string, hay = pre ++ needle ++ post.

Definition not_comma (c : ascii) : bool := negb (Ascii.eqb c ","%char).

(** A formatted number with its thousands separators removed. *)
Definition strip_commas (s : string) : string :=
  string_of_list_ascii
    (List.filter (fun c => negb (Ascii.eqb c ","%char)) (list_ascii_of_string s)).

(** The decimal numeral of a number, [str(n)]. *)
Definition decimal (n : nat) : string := NilEmpty.string_of_uint (Nat.to_uint n).

(** The four local image files the Satellite Imagery page opens (lines
    503, 514, 527, 538). *)
Definition image_paths : list string :=
  ["images/dem.jpg"; "images/sentinel1.png"; "images/sentinel2.png";
   "images/landsat.png"].

(** [st.image] can show the file at [path]: it is there, can be opened and
    decodes. *)
Definition can_show (is_image : string -> bool) (fs : gmap string node)
    (path : string) : bool :=
  match fs !! path with
  | Some (File content) => is_image content
  | _ => false
  end.

Definition is_image_block (b : Block) : bool :=
  match b with Image _ _ => true | _ => false end.

(** Over a given mapping, each fragment of the page code does what its
    counterpart on a mapping value does, and hands the mapping back as it
    was. *)
Definition matches {A} (m : Session.Sm A) (f : gmap string DataFrame -> St A) : Prop :=
  forall data q,
    m (Session.State data q)
    = (Session.State data (f data q).1, (f data q).2).

(** ** Sample inputs *)

Definition sample_one_column : DataFrame :=
  mkDataFrame 1 [("a", NumCol [Some 1%Q])].

Definition sample_two_columns : DataFrame :=
  mkDataFrame 2 [("winter", NumCol [Some (-12 # 1)%Q; Some (-9 # 1)%Q]);
                 ("summer", NumCol [Some (-15 # 1)%Q; None])].

Definition sample_dem : DataFrame :=
  mkDataFrame 3
    [("elev_change", NumCol [Some (-5 # 1)%Q; Some (-7 # 2)%Q; Some 1%Q]);
     ("class", StrCol [Some "thinning"; Some "thinning"; Some "stable"]);
     ("slope", NumCol [Some 10%Q; Some 20%Q; Some 33%Q])].

Definition sample_dem_text_slope : DataFrame :=
  mkDataFrame 1
    [("elev_change", NumCol [Some (-5 # 1)%Q]);
     ("slope", StrCol [Some "steep"])].

Definition sample_dem_categorical_slope : DataFrame :=
  mkDataFrame 2
    [("elev_change", NumCol [Some (-5 # 1)%Q; Some (-2 # 1)%Q]);
     ("class", StrCol [Some "thinning"; Some "stable"]);
     ("slope", StrCol [Some "steep"; Some "flat"])].

Definition sample_empty : DataFrame :=
  mkDataFrame 0 [("elev_change", NumCol [])].

Definition sample_named_axes : DataFrame :=
  mkDataFrame 2
    [("class", StrCol [Some "ice"; Some "debris"]);
     ("VV_2", NumCol [Some (-15 # 1)%Q; Some (-11 # 1)%Q]);
     ("VV_1", NumCol [Some (-12 # 1)%Q; Some (-9 # 1)%Q])].

Definition sample_dem_no_change : DataFrame :=
  mkDataFrame 2
    [("slope", NumCol [Some 10%Q; Some 30%Q]);
     ("aspect", NumCol [Some 90%Q; Some 180%Q])].

(** A stand-in parser: two contents parse, everything else is malformed. *)
Definition sample_parse (content : string) : result DataFrame :=
  if String.eqb content "winter,summer" then Ok sample_two_columns
  else if String.eqb content "a" then Ok sample_one_column
  else Raise ParserError.

Definition sample_fs : gmap string node :=
  {[ "models/sentinel1_data.csv" := File "winter,summer";
     "models/sentinel2_data.csv" := File "not a table";
     "datasets/DEM" := Directory ]}.

(** A stand-in image decoder: one content is an image. *)
Definition sample_is_image (content : string) : bool := String.eqb content "PNG".

Definition sample_fs_one_column : gmap string node :=
  {[ "models/sentinel1_data.csv" := File "a" ]}.

(** * Properties *)

(** ** Loader *)

Section LoaderFacts.
Variable parse_csv : string -> result DataFrame.
Implicit Types (fs : gmap string node) (d : gmap string DataFrame).

Lemma path_exists_true fs p : path_exists fs p = true <-> is_Some (fs !! p).
Proof. unfold path_exists. apply bool_decide_eq_true. Qed.

Lemma read_csv_loadable fs p :
  read_csv parse_csv fs p =
    match loadable parse_csv fs p with
    | Some df => Ok df
    | None => read_csv parse_csv fs p
    end.
Proof.
  unfold read_csv, loadable.
  destruct (fs !! p) as [[c| |]|]; try reflexivity.
  destruct (parse_csv c); reflexivity.
Qed.

(** A [try] block never raises: it stores the table when one can be
    obtained from the path, and leaves the dictionary alone otherwise. *)
Lemma try_load_spec fs key p d :
  try_load parse_csv fs key p d =
    Ok (match loadable parse_csv fs p with
        | Some df => <[key := df]> d
        | None => d
        end).
Proof.
  unfold try_load. destruct (path_exists fs p) eqn:X.
  - apply path_exists_true in X as [n Hn].
    unfold read_csv, loadable. rewrite Hn.
    destruct n as [c| |]; try reflexivity.
    destruct (parse_csv c); reflexivity.
  - assert (fs !! p = None) as Hn.
    { destruct (fs !! p) eqn:E; [|reflexivity].
      assert (path_exists fs p = true) by (apply path_exists_true; rewrite E; eauto).
      congruence. }
    unfold loadable. rewrite Hn. reflexivity.
Qed.

Lemma loadable_absent fs p : fs !! p = None -> loadable parse_csv fs p = None.
Proof. unfold loadable. intros ->. reflexivity. Qed.

Lemma loadable_unparseable fs p c :
  fs !! p = Some (File c) -> raises (parse_csv c) -> loadable parse_csv fs p = None.
Proof. unfold loadable. intros -> [e ->]. reflexivity. Qed.

Lemma loadable_Some fs p df :
  loadable parse_csv fs p = Some df ->
  exists c, fs !! p = Some (File c) /\ parse_csv c = Ok df.
Proof.
  unfold loadable. destruct (fs !! p) as [[c| |]|]; try discriminate.
  destruct (parse_csv c) eqn:E; try discriminate.
  intros [= ->]. eauto.
Qed.

Lemma loadable_agree fs fs' p :
  fs !! p = fs' !! p -> loadable parse_csv fs p = loadable parse_csv fs' p.
Proof. unfold loadable. intros ->. reflexivity. Qed.

Lemma load_model_data_loaded fs : load_model_data parse_csv fs = Ok (loaded parse_csv fs).
Proof.
  unfold load_model_data. rewrite try_load_spec. simpl.
  rewrite try_load_spec. simpl. rewrite try_load_spec. reflexivity.
Qed.

Lemma loaded_lookup fs k :
  loaded parse_csv fs !! k =
    if String.eqb k "Sentinel2" then loadable parse_csv fs "models/sentinel2_data.csv"
    else if String.eqb k "Sentinel1" then loadable parse_csv fs "models/sentinel1_data.csv"
    else if String.eqb k "DEM" then loadable parse_csv fs "datasets/DEM/data.csv"
    else None.
Proof.
  unfold loaded.
  destruct (String.eqb_spec k "Sentinel2") as [->|N2];
    [destruct (loadable parse_csv fs "models/sentinel2_data.csv") eqn:E2;
     destruct (loadable parse_csv fs "models/sentinel1_data.csv") eqn:E1;
     destruct (loadable parse_csv fs "datasets/DEM/data.csv") eqn:E0;
     by simplify_map_eq|].
  destruct (String.eqb_spec k "Sentinel1") as [->|N1];
    [destruct (loadable parse_csv fs "models/sentinel2_data.csv") eqn:E2;
     destruct (loadable parse_csv fs "models/sentinel1_data.csv") eqn:E1;
     destruct (loadable parse_csv fs "datasets/DEM/data.csv") eqn:E0;
     by simplify_map_eq|].
  destruct (String.eqb_spec k "DEM") as [->|N0];
    destruct (loadable parse_csv fs "models/sentinel2_data.csv") eqn:E2;
    destruct (loadable parse_csv fs "models/sentinel1_data.csv") eqn:E1;
    destruct (loadable parse_csv fs "datasets/DEM/data.csv") eqn:E0;
    by simplify_map_eq.
Qed.
End LoaderFacts.

(** ** The script monad *)

Lemma bind_emit {B} (b : Block) (k : St B) out :
  (emit b ;; k) out = k (out ++ [b])%list.
Proof. reflexivity. Qed.

Lemma bind_lift_ok {A B} (a : A) (k : A -> St B) out :
  (lift (Ok a) ≫= k) out = k a out.
Proof. reflexivity. Qed.

Lemma bind_lift_raise {A B} (e : exn) (k : A -> St B) out :
  (lift (Raise e) ≫= k) out = (out, Raise e).
Proof. reflexivity. Qed.

Lemma emit_all_run (bs : list Block) out :
  emit_all bs out = ((out ++ bs)%list, Ok tt).
Proof.
  revert out. induction bs as [|b bs IH]; intros out.
  - simpl. unfold mret, St_ret. by rewrite app_nil_r.
  - simpl. rewrite bind_emit, IH. by rewrite <- app_assoc.
Qed.

Lemma appends_mret {A} (a : A) : appends (mret a : St A).
Proof. intros out. unfold mret, St_ret. simpl. by rewrite app_nil_r. Qed.

Lemma appends_emit (b : Block) : appends (emit b).
Proof. intros out. reflexivity. Qed.

Lemma appends_lift {A} (r : result A) : appends (lift r).
Proof. intros out. unfold lift. simpl. by rewrite app_nil_r. Qed.

Lemma appends_emit_all (bs : list Block) : appends (emit_all bs).
Proof. intros out. by rewrite !emit_all_run. Qed.

Lemma appends_bind {A B} (m : St A) (k : A -> St B) :
  appends m -> (forall a, appends (k a)) -> appends (m ≫= k).
Proof.
  intros Hm Hk out. unfold mbind, St_bind.
  rewrite (Hm out). destruct (m []) as [bs [a|e]]; simpl.
  - rewrite (Hk a (out ++ bs)%list), (Hk a bs). simpl.
    by rewrite app_assoc.
  - reflexivity.
Qed.

Create HintDb script.
#[export] Hint Resolve appends_mret appends_emit appends_lift appends_emit_all : script.

Ltac appends_tac :=
  repeat first
    [ progress intros
    | apply appends_bind
    | match goal with
      | |- appends (if ?b then _ else _) => destruct b
      end
    | solve [auto with script] ].

Lemma sentinel_statistics_appends key data : appends (sentinel_statistics key data).
Proof. unfold sentinel_statistics. appends_tac. Qed.
#[export] Hint Resolve sentinel_statistics_appends : script.

Lemma view_dem_appends data : appends (view_dem data).
Proof. unfold view_dem. appends_tac. Qed.

Lemma view_sentinel1_appends data : appends (view_sentinel1 data).
Proof. unfold view_sentinel1. appends_tac. Qed.

Lemma view_sentinel2_appends data : appends (view_sentinel2 data).
Proof. unfold view_sentinel2. appends_tac. Qed.

Lemma view_landsat8_appends : appends view_landsat8.
Proof. unfold view_landsat8. appends_tac. Qed.
#[export] Hint Resolve view_dem_appends view_sentinel1_appends
  view_sentinel2_appends view_landsat8_appends : script.

Lemma page_data_analysis_appends modality data :
  appends (page_data_analysis modality data).
Proof. unfold page_data_analysis. appends_tac. Qed.
#[export] Hint Resolve page_data_analysis_appends : script.

Lemma st_image_appends is_image fs path caption :
  appends (st_image is_image fs path caption).
Proof.
  unfold st_image. destruct (fs !! path) as [[c| |]|]; appends_tac.
Qed.
#[export] Hint Resolve st_image_appends : script.

Lemma page_satellite_imagery_appends is_image fs :
  appends (page_satellite_imagery is_image fs).
Proof. unfold page_satellite_imagery. appends_tac. Qed.
#[export] Hint Resolve page_satellite_imagery_appends : script.

Lemma render_appends (is_image : string -> bool) (fs : gmap string node)
    page modality data :
  appends (render is_image fs page modality data).
Proof.
  unfold render, page_overview, page_machine_learning,
    page_results_insights, page_about.
  appends_tac.
Qed.

(** ** Claims about the loader *)

Lemma dataset_files_lookup parse_csv fs key p :
  (key, p) ∈ dataset_files ->
  loaded parse_csv fs !! key = loadable parse_csv fs p.
Proof.
  intros H. rewrite loaded_lookup.
  unfold dataset_files in H.
  repeat (apply elem_of_cons in H as [[= -> ->]|H]; [reflexivity|]).
  by apply elem_of_nil in H.
Qed.

Lemma dem_file : ("DEM", "datasets/DEM/data.csv") ∈ dataset_files.
Proof. apply list_elem_of_In. simpl. auto. Qed.

Lemma sentinel1_file : ("Sentinel1", "models/sentinel1_data.csv") ∈ dataset_files.
Proof. apply list_elem_of_In. simpl. auto. Qed.

Lemma sentinel2_file : ("Sentinel2", "models/sentinel2_data.csv") ∈ dataset_files.
Proof. apply list_elem_of_In. simpl. auto. Qed.

(** C1: [load_model_data] never raises, whatever the filesystem holds.  For
    each of the three dataset names, the returned mapping omits the key when
    the file is absent and when reading it fails (malformed, unreadable, a
    directory); what is stored under one name is decided by that name's path
    alone, so no other file can affect it. *)
Theorem load_model_data_never_raises
    (parse_csv : string -> result DataFrame) (fs : gmap string node) :
  exists m, load_model_data parse_csv fs = Ok m /\
    forall key p, (key, p) ∈ dataset_files ->
      (fs !! p = None -> m !! key = None) /\
      (raises (read_csv parse_csv fs p) -> m !! key = None) /\
      (forall fs' : gmap string node, fs' !! p = fs !! p ->
         exists m', load_model_data parse_csv fs' = Ok m' /\ m' !! key = m !! key).
Proof.
  exists (loaded parse_csv fs). split; [apply load_model_data_loaded|].
  intros key p Hin. rewrite (dataset_files_lookup _ _ _ _ Hin).
  split; [|split].
  - apply loadable_absent.
  - intros [e He]. rewrite read_csv_loadable in He.
    destruct (loadable parse_csv fs p); [discriminate|reflexivity].
  - intros fs' Hfs. exists (loaded parse_csv fs').
    split; [apply load_model_data_loaded|].
    rewrite (dataset_files_lookup _ _ _ _ Hin). by apply loadable_agree.
Qed.

(** C9: every key of the mapping returned by [load_model_data] is one of
    DEM, Sentinel1, Sentinel2, and the table stored under it is the one
    parsed from the file at that name's conventional path. *)
Theorem load_model_data_keys
    (parse_csv : string -> result DataFrame) (fs : gmap string node)
    (m : gmap string DataFrame) (key : string) (df : DataFrame) :
  load_model_data parse_csv fs = Ok m ->
  m !! key = Some df ->
  key ∈ ["DEM"; "Sentinel1"; "Sentinel2"] /\
  exists p content,
    (key, p) ∈ [("DEM", "datasets/DEM/data.csv");
                ("Sentinel1", "models/sentinel1_data.csv");
                ("Sentinel2", "models/sentinel2_data.csv")] /\
    fs !! p = Some (File content) /\ parse_csv content = Ok df.
Proof.
  rewrite load_model_data_loaded. intros [= <-]. rewrite loaded_lookup.
  destruct (String.eqb_spec key "Sentinel2") as [->|_].
  { intros (c & Hc & Hp)%loadable_Some. split; [set_solver|].
    exists "models/sentinel2_data.csv", c. split; [set_solver|done]. }
  destruct (String.eqb_spec key "Sentinel1") as [->|_].
  { intros (c & Hc & Hp)%loadable_Some. split; [set_solver|].
    exists "models/sentinel1_data.csv", c. split; [set_solver|done]. }
  destruct (String.eqb_spec key "DEM") as [->|_]; [|discriminate].
  intros (c & Hc & Hp)%loadable_Some. split; [set_solver|].
  exists "datasets/DEM/data.csv", c. split; [set_solver|done].
Qed.

Lemma load_model_data_keys_witness :
  load_model_data sample_parse sample_fs = Ok {[ "Sentinel1" := sample_two_columns ]} /\
  ({[ "Sentinel1" := sample_two_columns ]} : gmap string DataFrame) !! "Sentinel1"
    = Some sample_two_columns /\
  "Sentinel1" ∈ ["DEM"; "Sentinel1"; "Sentinel2"].
Proof.
  assert (load_model_data sample_parse sample_fs
          = Ok {[ "Sentinel1" := sample_two_columns ]}) as Hload
    by (vm_compute; reflexivity).
  assert (({[ "Sentinel1" := sample_two_columns ]} : gmap string DataFrame)
            !! "Sentinel1" = Some sample_two_columns) as Hkey
    by (vm_compute; reflexivity).
  split; [exact Hload|]. split; [exact Hkey|].
  exact (proj1 (load_model_data_keys sample_parse sample_fs _ _ _ Hload Hkey)).
Defined.

Lemma load_model_data_never_raises_witness :
  exists m, load_model_data sample_parse sample_fs = Ok m /\
    m !! "DEM" = None /\ m !! "Sentinel2" = None.
Proof.
  destruct (load_model_data_never_raises sample_parse sample_fs) as (m & Hm & H).
  exists m. split; [exact Hm|]. split.
  - refine (proj1 (H "DEM" "datasets/DEM/data.csv" _) _).
    + apply dem_file.
    + vm_compute; reflexivity.
  - refine (proj1 (proj2 (H "Sentinel2" "models/sentinel2_data.csv" _)) _).
    + apply sentinel2_file.
    + exists ParserError. vm_compute; reflexivity.
Defined.

(** ** Source expressions *)

Lemma available_Some (data : gmap string DataFrame) k df :
  data !! k = Some df -> available k data = Ok (0 <? len df)%nat.
Proof.
  intros H. unfold available, contains_key, subscript. rewrite H.
  rewrite bool_decide_eq_true_2 by eauto. reflexivity.
Qed.

Lemma available_None (data : gmap string DataFrame) k :
  data !! k = None -> available k data = Ok false.
Proof.
  intros H. unfold available, contains_key. rewrite H.
  rewrite bool_decide_eq_false_2; [reflexivity|]. by intros [x Hx].
Qed.

Lemma subscript_Some (data : gmap string DataFrame) k df :
  data !! k = Some df -> subscript data k = Ok df.
Proof. unfold subscript. by intros ->. Qed.

Lemma available_ext (m1 m2 : gmap string DataFrame) k :
  m1 !! k = m2 !! k -> available k m1 = available k m2.
Proof. unfold available, contains_key, subscript. by intros ->. Qed.

Lemma subscript_ext (m1 m2 : gmap string DataFrame) k :
  m1 !! k = m2 !! k -> subscript m1 k = subscript m2 k.
Proof. unfold subscript. by intros ->. Qed.

Lemma assoc_None c (l : list (string * Series)) :
  assoc c l = None <-> c ∉ l.*1.
Proof.
  induction l as [|[k s] l IH]; simpl.
  - split; [intros _; apply not_elem_of_nil|done].
  - rewrite not_elem_of_cons. destruct (String.eqb_spec c k) as [->|N].
    + split; [discriminate|]. by intros [? _].
    + rewrite IH. tauto.
Qed.

Lemma has_column_true c df :
  has_column c df = true <-> exists s, getitem df c = Ok s.
Proof.
  unfold has_column, getitem, columns. rewrite bool_decide_eq_true.
  destruct (assoc c (df_data df)) eqn:E.
  - split; [eauto|]. intros _.
    destruct (decide (c ∈ (df_data df).*1)) as [|N]; [done|].
    apply assoc_None in N. congruence.
  - apply assoc_None in E. split; [done|]. by intros [s [=]].
Qed.

Lemma has_column_false c df :
  has_column c df = false <-> c ∉ columns df.
Proof. unfold has_column. apply bool_decide_eq_false. Qed.

Lemma has_column_getitem c df s :
  getitem df c = Ok s -> has_column c df = true.
Proof. intros H. apply has_column_true. eauto. Qed.

Lemma has_column_no_getitem c df :
  has_column c df = false -> getitem df c = Raise KeyError.
Proof.
  intros H. unfold getitem. destruct (assoc c (df_data df)) eqn:E; [|done].
  assert (has_column c df = true) by (apply has_column_true; unfold getitem; rewrite E; eauto).
  congruence.
Qed.

Lemma column_or_fallback name df i c :
  name ∉ columns df -> columns df !! i = Some c -> column_or name df i = Ok c.
Proof.
  intros H%has_column_false Hc. unfold column_or, column_at.
  by rewrite H, Hc.
Qed.

Lemma column_or_out_of_range name df i :
  name ∉ columns df -> (length (columns df) <= i)%nat ->
  column_or name df i = Raise IndexError.
Proof.
  intros H%has_column_false Hc. unfold column_or, column_at.
  rewrite H. by rewrite (lookup_ge_None_2 _ _ Hc).
Qed.

Lemma render_data_analysis (is_image : string -> bool) (fs : gmap string node)
    modality data :
  render is_image fs "Data Analysis" modality data = page_data_analysis modality data.
Proof. reflexivity. Qed.

(** The sample tables are tables a CSV file can hold. *)
Lemma sample_tables_well_formed :
  Forall well_formed
    [sample_one_column; sample_two_columns; sample_dem; sample_dem_text_slope;
     sample_empty].
Proof.
  repeat constructor; try (intros H; apply list_elem_of_In in H; simpl in H;
                           intuition discriminate).
Qed.

(** ** Claims about the page renderer *)

(** C6: the Overview, Satellite Imagery, Machine Learning, Results &
    Insights and About pages never consult the mapping: under any two
    mappings (and any sub-view selection) they render the same blocks. *)
Theorem static_pages_ignore_data (is_image : string -> bool) (fs : gmap string node)
    (page : string) (modality1 modality2 : string)
    (m1 m2 : gmap string DataFrame) :
  page ∈ ["Overview"; "Satellite Imagery"; "Machine Learning";
          "Results & Insights"; "About"] ->
  run (render is_image fs page modality1 m1) = run (render is_image fs page modality2 m2).
Proof.
  intros H.
  repeat (apply elem_of_cons in H as [->|H]; [reflexivity|]).
  by apply elem_of_nil in H.
Qed.

Lemma static_pages_ignore_data_witness :
  run (render sample_is_image sample_fs "Overview" "Sentinel-1 SAR" ∅)
  = run (render sample_is_image sample_fs "Overview" "Landsat-8 Thermal" {[ "DEM" := sample_dem ]}).
Proof.
  apply (static_pages_ignore_data sample_is_image sample_fs "Overview"). set_solver.
Defined.

Lemma render_other_page (is_image : string -> bool) (fs : gmap string node)
    page modality data :
  page ∉ pages -> render is_image fs page modality data = mret tt.
Proof.
  intros H. unfold render, pages in *.
  repeat match goal with
         | |- context [String.eqb page ?s] =>
             destruct (String.eqb_spec page s) as [->|_];
             [exfalso; apply H; set_solver|]
         end.
  reflexivity.
Qed.

(** C10: for a page identifier outside the six-element enumeration the
    script does not raise and no branch of the dispatch chain runs: the
    page consists of the static header and sidebar blocks followed by the
    footer blocks. *)
Theorem dashboard_unknown_page (is_image : string -> bool)
    (parse_csv : string -> result DataFrame) (fs : gmap string node)
    (page modality : string) :
  page ∉ pages ->
  run (dashboard parse_csv is_image fs page modality)
  = ((header_blocks ++ footer_blocks)%list, Ok tt).
Proof.
  intros H. unfold run, dashboard, mbind, St_bind.
  rewrite emit_all_run, load_model_data_loaded. unfold lift.
  rewrite (render_other_page _ _ _ _ _ H). unfold mret, St_ret.
  rewrite emit_all_run. reflexivity.
Qed.

Lemma dashboard_unknown_page_witness :
  ("Settings" ∉ pages) /\
  run (dashboard sample_parse sample_is_image sample_fs "Settings" "Sentinel-1 SAR")
  = ((header_blocks ++ footer_blocks)%list, Ok tt).
Proof.
  assert ("Settings" ∉ pages) as H.
  { intros H. apply list_elem_of_In in H. simpl in H. intuition discriminate. }
  split; [exact H|].
  exact (dashboard_unknown_page sample_is_image sample_parse sample_fs "Settings" "Sentinel-1 SAR" H).
Defined.

(** C3: when the Sentinel1 table is non-empty, has at least two columns and
    has neither a VV_1 nor a VV_2 column, the Sentinel-1 view of the Data
    Analysis page does not raise and emits exactly one chart: a scatter plot
    of the table with its first column as x-axis and its second column as
    y-axis. *)
Theorem sentinel1_positional_fallback (is_image : string -> bool) (fs : gmap string node)
    (data : gmap string DataFrame) (df : DataFrame) :
  data !! "Sentinel1" = Some df ->
  (0 < len df)%nat ->
  (2 <= length (columns df))%nat ->
  "VV_1" ∉ columns df ->
  "VV_2" ∉ columns df ->
  exists c0 c1 blocks,
    columns df !! 0%nat = Some c0 /\
    columns df !! 1%nat = Some c1 /\
    run (render is_image fs "Data Analysis" "Sentinel-1 SAR" data) = (blocks, Ok tt) /\
    List.filter is_chart blocks =
      [PlotlyChart (Scatter "Winter vs Summer Backscatter" df c0 c1 (color_of df) [] [])].
Proof.
  intros Hdf Hlen Hcols Hx Hy.
  destruct (columns df) as [|c0 [|c1 rest]] eqn:Ecols; simpl in Hcols; try lia.
  assert (columns df !! 0%nat = Some c0) as H0 by (by rewrite Ecols).
  assert (columns df !! 1%nat = Some c1) as H1 by (by rewrite Ecols).
  rewrite <- Ecols in Hx, Hy.
  apply Nat.ltb_lt in Hlen.
  destruct (has_column "class" df) eqn:Ecls;
    [pose proof Ecls as Hs; apply has_column_true in Hs as [s Hs]|];
    exists c0, c1; eexists; (split; [done|]); (split; [done|]);
    rewrite render_data_analysis;
    unfold run, page_data_analysis, view_sentinel1, sentinel_statistics;
    cbn [substring_in String.prefix Ascii.eqb Bool.eqb];
    unfold mbind, St_bind, emit, lift, mret, St_ret;
    rewrite (available_Some _ _ _ Hdf), (subscript_Some _ _ _ Hdf);
    rewrite (column_or_fallback _ _ _ _ Hx H0), (column_or_fallback _ _ _ _ Hy H1);
    rewrite Hlen, Ecls, ?Hs; simpl; split; reflexivity.
Qed.

Lemma sentinel1_positional_fallback_witness :
  exists blocks,
    run (render sample_is_image sample_fs "Data Analysis" "Sentinel-1 SAR" {[ "Sentinel1" := sample_two_columns ]})
      = (blocks, Ok tt) /\
    List.filter is_chart blocks =
      [PlotlyChart (Scatter "Winter vs Summer Backscatter" sample_two_columns
                      "winter" "summer" None [] [])].
Proof.
  destruct (sentinel1_positional_fallback sample_is_image sample_fs
              {[ "Sentinel1" := sample_two_columns ]} sample_two_columns)
    as (c0 & c1 & blocks & H0 & H1 & Hrun & Hchart).
  - vm_compute; reflexivity.
  - vm_compute; lia.
  - vm_compute; lia.
  - intros H. apply list_elem_of_In in H. simpl in H. intuition discriminate.
  - intros H. apply list_elem_of_In in H. simpl in H. intuition discriminate.
  - exists blocks. split; [exact Hrun|].
    injection H0 as <-. injection H1 as <-. exact Hchart.
Defined.

(** C4, as stated, fails: a DEM table with rows and the three columns
    elev_change, class and slope whose slope column holds text (two rows,
    slopes "steep" and "flat") does not get an Avg Slope metric; the view
    raises TypeError at the mean. *)
Lemma dem_text_slope_counterexample :
  ~ (forall (is_image : string -> bool) (fs : gmap string node)
            (data : gmap string DataFrame) (df : DataFrame) (N : nat),
       data !! "DEM" = Some df ->
       len df = N ->
       (0 < N)%nat ->
       "elev_change" ∈ columns df ->
       "class" ∈ columns df ->
       "slope" ∈ columns df ->
       exists blocks value,
         run (render is_image fs "Data Analysis" "Digital Elevation Model (DEM)" data)
           = (blocks, Ok tt) /\
         Metric "Avg Slope" value None ∈ blocks).
Proof.
  intros H.
  destruct (H (fun _ => true) ∅ {[ "DEM" := sample_dem_categorical_slope ]}
              sample_dem_categorical_slope 2%nat)
    as (blocks & value & Hrun & _).
  - vm_compute; reflexivity.
  - reflexivity.
  - lia.
  - apply list_elem_of_In. simpl. auto.
  - apply list_elem_of_In. simpl. auto.
  - apply list_elem_of_In. simpl. auto.
  - vm_compute in Hrun. discriminate Hrun.
Qed.

(** C4, amended: when the DEM table has N > 0 rows and an elev_change column (and
    its slope column, if any, is numeric), the DEM view of the Data Analysis
    page does not raise and emits exactly one chart, the 50-bin histogram of
    the elev_change column.  Its metrics are the row count N, then the
    number of distinct values of the class column if that column exists,
    then the mean of the slope column if that column exists; either of the
    last two is left out, independently of the other, when its column is
    absent. *)
Theorem dem_view_chart_and_metrics (is_image : string -> bool) (fs : gmap string node)
    (data : gmap string DataFrame) (df : DataFrame) (N : nat) (x : Series) :
  data !! "DEM" = Some df ->
  len df = N ->
  (0 < N)%nat ->
  getitem df "elev_change" = Ok x ->
  (forall s, getitem df "slope" = Ok s -> ~ raises (mean s)) ->
  exists blocks,
    run (render is_image fs "Data Analysis" "Digital Elevation Model (DEM)" data) = (blocks, Ok tt) /\
    List.filter is_chart blocks =
      [PlotlyChart (Histogram "Elevation Change Distribution (2000-2011)" x 50)] /\
    List.filter is_metric blocks =
      ([Metric "Total Samples" (VStr (format_thousands N)) None]
       ++ match getitem df "class" with
          | Ok s => [Metric "Classes Identified" (VInt (nunique s)) None]
          | Raise _ => []
          end
       ++ match getitem df "slope" with
          | Ok s =>
              match mean s with
              | Ok m => [Metric "Avg Slope" (VFixed1 m "°") None]
              | Raise _ => []
              end
          | Raise _ => []
          end)%list.
Proof.
  intros Hdf <- Hlen Hx Hslope.
  apply Nat.ltb_lt in Hlen.
  pose proof (has_column_getitem _ _ _ Hx) as Ex.
  assert (run (render is_image fs "Data Analysis" "Digital Elevation Model (DEM)" data)
          = view_dem data [Markdown "## Multi-Modal Data Analysis";
                           Selectbox "Select Data Source:" modalities;
                           Markdown "---"]) as -> by reflexivity.
  unfold view_dem, mbind, St_bind, emit, lift, mret, St_ret.
  rewrite (available_Some _ _ _ Hdf), (subscript_Some _ _ _ Hdf), Hlen, Ex, Hx.
  destruct (has_column "class" df) eqn:Ec;
    [pose proof Ec as Hc; apply has_column_true in Hc as [c Hc]
    |pose proof (has_column_no_getitem _ _ Ec) as Hc];
    (destruct (has_column "slope" df) eqn:Es;
     [pose proof Es as Hs; apply has_column_true in Hs as [s Hs];
      destruct (mean s) as [m|e] eqn:Em;
      [|exfalso; apply (Hslope s Hs); by exists e]
     |pose proof (has_column_no_getitem _ _ Es) as Hs]);
    rewrite Hc, Hs, ?Em; simpl; eexists; (split; [reflexivity|]);
    split; reflexivity.
Qed.

Lemma dem_view_chart_and_metrics_witness :
  exists blocks,
    run (render sample_is_image sample_fs "Data Analysis" "Digital Elevation Model (DEM)" {[ "DEM" := sample_dem ]})
      = (blocks, Ok tt) /\
    List.filter is_metric blocks =
      [Metric "Total Samples" (VStr "3") None;
       Metric "Classes Identified" (VInt 2) None;
       Metric "Avg Slope" (VFixed1 (Some (63 # 3)%Q) "°") None].
Proof.
  destruct (dem_view_chart_and_metrics sample_is_image sample_fs {[ "DEM" := sample_dem ]} sample_dem 3
              (NumCol [Some (-5 # 1)%Q; Some (-7 # 2)%Q; Some 1%Q]))
    as (blocks & Hrun & _ & Hmetrics).
  - vm_compute; reflexivity.
  - vm_compute; reflexivity.
  - lia.
  - vm_compute; reflexivity.
  - intros s Hs [e He]. vm_compute in Hs. injection Hs as <-.
    vm_compute in He. discriminate He.
  - exists blocks. split; [exact Hrun|]. exact Hmetrics.
Defined.

Lemma available_unavailable (data : gmap string DataFrame) k :
  data !! k = None \/ (exists df, data !! k = Some df /\ len df = 0%nat) ->
  available k data = Ok false.
Proof.
  intros [H|(df & H & Hlen)].
  - by apply available_None.
  - rewrite (available_Some _ _ _ H), Hlen. reflexivity.
Qed.

(** C5: when the mapping has no DEM entry, or its DEM table has zero rows,
    the DEM view of the Data Analysis page does not raise, emits exactly one
    informational placeholder and no chart, and renders exactly what it
    renders for the mapping with the DEM entry removed. *)
Theorem dem_view_placeholder (is_image : string -> bool) (fs : gmap string node)
    (data : gmap string DataFrame) :
  data !! "DEM" = None \/ (exists df, data !! "DEM" = Some df /\ len df = 0%nat) ->
  exists blocks,
    run (render is_image fs "Data Analysis" "Digital Elevation Model (DEM)" data) = (blocks, Ok tt) /\
    List.filter is_info blocks =
      [InfoBox "Run DEM.ipynb notebook to generate data for visualization"] /\
    List.filter is_chart blocks = [] /\
    run (render is_image fs "Data Analysis" "Digital Elevation Model (DEM)" (delete "DEM" data))
      = (blocks, Ok tt).
Proof.
  intros H. apply available_unavailable in H.
  assert (available "DEM" (delete "DEM" data) = Ok false) as H'
    by (apply available_None, lookup_delete_eq).
  assert (forall d, run (render is_image fs "Data Analysis" "Digital Elevation Model (DEM)" d)
          = view_dem d [Markdown "## Multi-Modal Data Analysis";
                        Selectbox "Select Data Source:" modalities;
                        Markdown "---"]) as E by reflexivity.
  rewrite !E. unfold view_dem, mbind, St_bind, emit, lift, mret, St_ret.
  rewrite H, H'. simpl. eexists. repeat split; reflexivity.
Qed.

Lemma dem_view_placeholder_witness :
  exists blocks,
    run (render sample_is_image sample_fs "Data Analysis" "Digital Elevation Model (DEM)" {[ "DEM" := sample_empty ]})
      = (blocks, Ok tt) /\
    List.filter is_info blocks =
      [InfoBox "Run DEM.ipynb notebook to generate data for visualization"] /\
    List.filter is_chart blocks = [].
Proof.
  destruct (dem_view_placeholder sample_is_image sample_fs {[ "DEM" := sample_empty ]})
    as (blocks & Hrun & Hinfo & Hchart & _).
  - right. exists sample_empty. split; vm_compute; reflexivity.
  - exists blocks. split; [exact Hrun|]. split; [exact Hinfo|exact Hchart].
Defined.

(** C2: the claim fails on the code.  A non-empty one-column Sentinel1 (or
    Sentinel2) table without the named y-axis column makes the positional
    fallback [columns[1]] raise IndexError: the page stops after the view's
    introduction, no placeholder is emitted and the footer is never reached.
    A DEM table whose slope column holds text makes [mean] raise
    TypeError after the chart. *)
Theorem one_column_scatter_raises (is_image : string -> bool) (fs : gmap string node) :
  run (render is_image fs "Data Analysis" "Sentinel-1 SAR" {[ "Sentinel1" := sample_one_column ]})
    = ([Markdown "## Multi-Modal Data Analysis";
        Selectbox "Select Data Source:" modalities;
        Markdown "---";
        Markdown "### SAR Backscatter Analysis (2021)";
        Markdown "**What we measure:**"],
       Raise IndexError) /\
  (run (render is_image fs "Data Analysis" "Sentinel-2 Optical" {[ "Sentinel2" := sample_one_column ]})).2
    = Raise IndexError /\
  run (dashboard sample_parse sample_is_image sample_fs_one_column "Data Analysis" "Sentinel-1 SAR")
    = ((header_blocks ++
        [Markdown "## Multi-Modal Data Analysis";
         Selectbox "Select Data Source:" modalities;
         Markdown "---";
         Markdown "### SAR Backscatter Analysis (2021)";
         Markdown "**What we measure:**"])%list,
       Raise IndexError) /\
  (run (render is_image fs "Data Analysis" "Digital Elevation Model (DEM)"
          {[ "DEM" := sample_dem_text_slope ]})).2
    = Raise TypeError.
Proof. repeat split; vm_compute; reflexivity. Qed.

(** Any non-empty Sentinel1 table with fewer than two columns and no VV_2
    column aborts the Sentinel-1 view. *)
Lemma sentinel1_short_table_raises (is_image : string -> bool) (fs : gmap string node)
    (data : gmap string DataFrame) (df : DataFrame) :
  data !! "Sentinel1" = Some df ->
  (0 < len df)%nat ->
  (length (columns df) < 2)%nat ->
  "VV_2" ∉ columns df ->
  (run (render is_image fs "Data Analysis" "Sentinel-1 SAR" data)).2 = Raise IndexError.
Proof.
  intros Hdf Hlen Hcols Hy. apply Nat.ltb_lt in Hlen.
  assert (column_or "VV_2" df 1 = Raise IndexError) as Ey
    by (apply column_or_out_of_range; [done|lia]).
  assert (exists x, column_or "VV_1" df 0 = x) as [x Ex] by eauto.
  assert (forall e, x = Raise e -> e = IndexError) as Hx.
  { intros e ->. unfold column_or, column_at in Ex.
    destruct (has_column "VV_1" df); [discriminate|].
    destruct (columns df !! 0%nat); congruence. }
  rewrite render_data_analysis.
  unfold run, page_data_analysis, view_sentinel1.
  unfold mbind, St_bind, emit, lift, mret, St_ret.
  rewrite (available_Some _ _ _ Hdf), (subscript_Some _ _ _ Hdf), Hlen, Ex, Ey.
  destruct x as [c|e]; simpl; [reflexivity|].
  by rewrite (Hx e eq_refl).
Qed.

(** What a view renders is decided by the entry of its own dataset. *)
Lemma view_dem_ext (m1 m2 : gmap string DataFrame) :
  m1 !! "DEM" = m2 !! "DEM" -> view_dem m1 = view_dem m2.
Proof.
  intros H. unfold view_dem.
  by rewrite (available_ext _ _ _ H), (subscript_ext _ _ _ H).
Qed.

Lemma sentinel_statistics_ext key (m1 m2 : gmap string DataFrame) :
  m1 !! key = m2 !! key -> sentinel_statistics key m1 = sentinel_statistics key m2.
Proof.
  intros H. unfold sentinel_statistics.
  by rewrite (available_ext _ _ _ H), (subscript_ext _ _ _ H).
Qed.

Lemma view_sentinel1_ext (m1 m2 : gmap string DataFrame) :
  m1 !! "Sentinel1" = m2 !! "Sentinel1" -> view_sentinel1 m1 = view_sentinel1 m2.
Proof.
  intros H. unfold view_sentinel1.
  by rewrite (available_ext _ _ _ H), (subscript_ext _ _ _ H),
    (sentinel_statistics_ext _ _ _ H).
Qed.

Lemma view_sentinel2_ext (m1 m2 : gmap string DataFrame) :
  m1 !! "Sentinel2" = m2 !! "Sentinel2" -> view_sentinel2 m1 = view_sentinel2 m2.
Proof.
  intros H. unfold view_sentinel2.
  by rewrite (available_ext _ _ _ H), (subscript_ext _ _ _ H),
    (sentinel_statistics_ext _ _ _ H).
Qed.

Lemma landsat8_ignores_data (is_image : string -> bool) (fs : gmap string node)
    (m1 m2 : gmap string DataFrame) :
  run (render is_image fs "Data Analysis" "Landsat-8 Thermal" m1)
  = run (render is_image fs "Data Analysis" "Landsat-8 Thermal" m2).
Proof. reflexivity. Qed.

Lemma consults_witness (is_image : string -> bool) (fs : gmap string node)
    (modality key : string) :
  run (render is_image fs "Data Analysis" modality ∅)
    <> run (render is_image fs "Data Analysis" modality {[ key := sample_two_columns ]}) ->
  consults modality key.
Proof.
  intros H. exists is_image, fs, ∅, {[ key := sample_two_columns ]}.
  split; [|exact H].
  intros k Hk. by rewrite lookup_empty, lookup_singleton_ne.
Qed.

(** C7, as stated, fails: the Landsat-8 Thermal modality is selectable, but
    its view consults no entry of the mapping. *)
Lemma landsat8_lookup_counterexample :
  ~ (forall modality, modality ∈ modalities -> exists key, consults modality key).
Proof.
  intros H.
  destruct (H "Landsat-8 Thermal") as (key & is_image & fs & m1 & m2 & _ & Hne).
  - apply list_elem_of_In. simpl. auto.
  - apply Hne, landsat8_ignores_data.
Qed.

(** C7, amended: for the DEM, Sentinel-1 and Sentinel-2 modalities the Data
    Analysis page consults the entry DEM, Sentinel1, Sentinel2 respectively,
    and what it renders is decided by that entry alone; for the Landsat-8
    Thermal modality it renders the same static blocks under every
    mapping. *)
Theorem data_analysis_lookup :
  (forall modality key,
      (modality, key) ∈ [("Digital Elevation Model (DEM)", "DEM");
                         ("Sentinel-1 SAR", "Sentinel1");
                         ("Sentinel-2 Optical", "Sentinel2")] ->
      consults modality key /\
      forall (is_image : string -> bool) (fs : gmap string node)
             (m1 m2 : gmap string DataFrame),
        m1 !! key = m2 !! key ->
        run (render is_image fs "Data Analysis" modality m1)
        = run (render is_image fs "Data Analysis" modality m2)) /\
  (forall (is_image : string -> bool) (fs : gmap string node)
          (m1 m2 : gmap string DataFrame),
      run (render is_image fs "Data Analysis" "Landsat-8 Thermal" m1)
      = run (render is_image fs "Data Analysis" "Landsat-8 Thermal" m2)).
Proof.
  split; [|exact landsat8_ignores_data].
  intros modality key H.
  repeat (apply elem_of_cons in H as [[= -> ->]|H]).
  - split.
    + apply (consults_witness (fun _ => true) ∅).
      intros E. vm_compute in E. discriminate E.
    + intros is_image fs m1 m2 Hk.
      change (view_dem m1 [Markdown "## Multi-Modal Data Analysis";
                           Selectbox "Select Data Source:" modalities; Markdown "---"]
              = view_dem m2 [Markdown "## Multi-Modal Data Analysis";
                             Selectbox "Select Data Source:" modalities; Markdown "---"]).
      by rewrite (view_dem_ext _ _ Hk).
  - split.
    + apply (consults_witness (fun _ => true) ∅).
      intros E. vm_compute in E. discriminate E.
    + intros is_image fs m1 m2 Hk.
      change (view_sentinel1 m1 [Markdown "## Multi-Modal Data Analysis";
                                 Selectbox "Select Data Source:" modalities; Markdown "---"]
              = view_sentinel1 m2 [Markdown "## Multi-Modal Data Analysis";
                                   Selectbox "Select Data Source:" modalities; Markdown "---"]).
      by rewrite (view_sentinel1_ext _ _ Hk).
  - split.
    + apply (consults_witness (fun _ => true) ∅).
      intros E. vm_compute in E. discriminate E.
    + intros is_image fs m1 m2 Hk.
      change (view_sentinel2 m1 [Markdown "## Multi-Modal Data Analysis";
                                 Selectbox "Select Data Source:" modalities; Markdown "---"]
              = view_sentinel2 m2 [Markdown "## Multi-Modal Data Analysis";
                                   Selectbox "Select Data Source:" modalities; Markdown "---"]).
      by rewrite (view_sentinel2_ext _ _ Hk).
  - by apply elem_of_nil in H.
Qed.

(** * Further properties of the script *)

(** ** Loader: a well-formed file is loaded *)

(** When the file at a dataset's conventional path exists and parses, the
    loader stores the parsed table under that dataset's name, whatever the
    state of the other two files. *)
Theorem load_model_data_complete
    (parse_csv : string -> result DataFrame) (fs : gmap string node)
    (key p content : string) (df : DataFrame) :
  (key, p) ∈ dataset_files ->
  fs !! p = Some (File content) ->
  parse_csv content = Ok df ->
  exists m, load_model_data parse_csv fs = Ok m /\ m !! key = Some df.
Proof.
  intros Hin Hfs Hparse. exists (loaded parse_csv fs).
  split; [apply load_model_data_loaded|].
  rewrite (dataset_files_lookup _ _ _ _ Hin).
  unfold loadable. by rewrite Hfs, Hparse.
Qed.

Lemma load_model_data_complete_witness :
  exists m, load_model_data sample_parse sample_fs = Ok m /\
    m !! "Sentinel1" = Some sample_two_columns.
Proof.
  apply (load_model_data_complete sample_parse sample_fs
           "Sentinel1" "models/sentinel1_data.csv" "winter,summer").
  - apply sentinel1_file.
  - vm_compute; reflexivity.
  - vm_compute; reflexivity.
Defined.

(** The loader returns the empty mapping exactly when none of the three
    files yields a table. *)
Theorem load_model_data_empty
    (parse_csv : string -> result DataFrame) (fs : gmap string node) :
  load_model_data parse_csv fs = Ok ∅ <->
  (forall key p, (key, p) ∈ dataset_files -> ~ exists df, read_csv parse_csv fs p = Ok df).
Proof.
  rewrite load_model_data_loaded. split.
  - intros [= E] key p Hin [df Hdf].
    pose proof (dataset_files_lookup parse_csv fs key p Hin) as Hl.
    rewrite E, lookup_empty in Hl.
    unfold read_csv, loadable in *.
    destruct (fs !! p) as [[c| |]|]; try discriminate.
    destruct (parse_csv c); discriminate.
  - intros H. f_equal. apply map_eq. intros k.
    rewrite lookup_empty, loaded_lookup.
    assert (forall key p, (key, p) ∈ dataset_files -> loadable parse_csv fs p = None) as Hn.
    { intros key p Hin. destruct (loadable parse_csv fs p) as [df|] eqn:E; [|done].
      exfalso. apply (H key p Hin). exists df.
      rewrite read_csv_loadable, E. reflexivity. }
    rewrite (Hn _ _ dem_file), (Hn _ _ sentinel1_file), (Hn _ _ sentinel2_file).
    by repeat case_match.
Qed.

(** ** The views of the Data Analysis page, evaluated *)

Lemma render_data_analysis_run (is_image : string -> bool) (fs : gmap string node)
    modality data :
  run (render is_image fs "Data Analysis" modality data)
  = (if substring_in "DEM" modality then view_dem data
     else if substring_in "Sentinel-1" modality then view_sentinel1 data
     else if substring_in "Sentinel-2" modality then view_sentinel2 data
     else if substring_in "Landsat-8" modality then view_landsat8
     else mret tt) data_analysis_intro.
Proof. reflexivity. Qed.

Lemma available_cases (data : gmap string DataFrame) key :
  (unavailable key data /\ available key data = Ok false) \/
  (exists df, data !! key = Some df /\ (0 < len df)%nat /\ available key data = Ok true).
Proof.
  destruct (data !! key) as [df|] eqn:E.
  - destruct (len df) as [|n] eqn:El.
    + left. split; [right; eauto|]. rewrite (available_Some _ _ _ E), El. reflexivity.
    + right. exists df. split; [done|]. split; [lia|].
      rewrite (available_Some _ _ _ E), El. reflexivity.
  - left. split; [by left|]. by apply available_None.
Qed.

Lemma class_metric_has label df :
  class_metric label df =
    if has_column "class" df
    then match getitem df "class" with
         | Ok s => [Metric label (VInt (nunique s)) None]
         | Raise _ => []
         end
    else [].
Proof.
  unfold class_metric. destruct (has_column "class" df) eqn:E; [done|].
  by rewrite (has_column_no_getitem _ _ E).
Qed.

Lemma sentinel_statistics_run key (data : gmap string DataFrame) df out :
  data !! key = Some df -> (0 < len df)%nat ->
  sentinel_statistics key data out
  = ((out ++ Metric "Total Samples" (VStr (format_thousands (len df))) None
          :: class_metric "Classes" df)%list, Ok tt).
Proof.
  intros Hdf Hlen. apply Nat.ltb_lt in Hlen.
  unfold sentinel_statistics, mbind, St_bind, emit, lift, mret, St_ret.
  rewrite (available_Some _ _ _ Hdf), (subscript_Some _ _ _ Hdf), Hlen.
  rewrite class_metric_has.
  destruct (has_column "class" df) eqn:Ec.
  - apply has_column_true in Ec as [s ->]. by rewrite <- app_assoc.
  - reflexivity.
Qed.

Lemma sentinel_statistics_unavailable key (data : gmap string DataFrame) out :
  available key data = Ok false -> sentinel_statistics key data out = (out, Ok tt).
Proof.
  intros H. unfold sentinel_statistics, mbind, St_bind, lift. by rewrite H.
Qed.

Lemma view_sentinel1_run (data : gmap string DataFrame) df :
  data !! "Sentinel1" = Some df -> (0 < len df)%nat ->
  view_sentinel1 data data_analysis_intro =
    match column_or "VV_1" df 0, column_or "VV_2" df 1 with
    | Ok x, Ok y =>
        ((data_analysis_intro ++
          [Markdown "### SAR Backscatter Analysis (2021)";
           Markdown "**What we measure:**";
           PlotlyChart (Scatter "Winter vs Summer Backscatter" df x y (color_of df) [] []);
           Markdown "### Statistics";
           Metric "Total Samples" (VStr (format_thousands (len df))) None] ++
          class_metric "Classes" df ++
          [Markdown "### SAR Bands";
           Markdown "- **VV**: Vertical transmit/receive"])%list, Ok tt)
    | Raise e, _ | Ok _, Raise e =>
        ((data_analysis_intro ++
          [Markdown "### SAR Backscatter Analysis (2021)";
           Markdown "**What we measure:**"])%list, Raise e)
    end.
Proof.
  intros Hdf Hlen. pose proof Hlen as Hlt. apply Nat.ltb_lt in Hlt.
  unfold view_sentinel1, mbind, St_bind, emit, lift.
  rewrite (available_Some _ _ _ Hdf), (subscript_Some _ _ _ Hdf), Hlt.
  destruct (column_or "VV_1" df 0) as [x|e]; [|reflexivity].
  destruct (column_or "VV_2" df 1) as [y|e]; [|reflexivity].
  rewrite (sentinel_statistics_run _ _ _ _ Hdf Hlen).
  simpl. by rewrite <- !app_assoc.
Qed.

Lemma view_sentinel2_run (data : gmap string DataFrame) df :
  data !! "Sentinel2" = Some df -> (0 < len df)%nat ->
  view_sentinel2 data data_analysis_intro =
    match column_or "NDSI_2023" df 0, column_or "NDVI_2023" df 1 with
    | Ok x, Ok y =>
        ((data_analysis_intro ++
          [Markdown "### Optical Spectral Analysis (2018-2023)";
           Markdown "**What we measure:**";
           PlotlyChart (Scatter "NDVI vs NDSI (2023)" df x y (color_of df)
                          [0%Q] [(4 # 10)%Q]);
           Markdown "### Statistics";
           Metric "Total Samples" (VStr (format_thousands (len df))) None] ++
          class_metric "Classes" df ++
          [Markdown "### Indices";
           Markdown "- **NDSI > 0.4**: Snow/Ice"])%list, Ok tt)
    | Raise e, _ | Ok _, Raise e =>
        ((data_analysis_intro ++
          [Markdown "### Optical Spectral Analysis (2018-2023)";
           Markdown "**What we measure:**"])%list, Raise e)
    end.
Proof.
  intros Hdf Hlen. pose proof Hlen as Hlt. apply Nat.ltb_lt in Hlt.
  unfold view_sentinel2, mbind, St_bind, emit, lift.
  rewrite (available_Some _ _ _ Hdf), (subscript_Some _ _ _ Hdf), Hlt.
  destruct (column_or "NDSI_2023" df 0) as [x|e]; [|reflexivity].
  destruct (column_or "NDVI_2023" df 1) as [y|e]; [|reflexivity].
  rewrite (sentinel_statistics_run _ _ _ _ Hdf Hlen).
  simpl. by rewrite <- !app_assoc.
Qed.

Lemma view_dem_run (data : gmap string DataFrame) df :
  data !! "DEM" = Some df -> (0 < len df)%nat ->
  view_dem data data_analysis_intro =
    let upto :=
      (data_analysis_intro ++
       [Markdown "### Elevation Change Analysis (2000-2011)";
        Markdown "**What we measure:**";
        match getitem df "elev_change" with
        | Ok x => PlotlyChart (Histogram "Elevation Change Distribution (2000-2011)" x 50)
        | Raise _ => WarningBox "Elevation change data not available in the dataset."
        end;
        Markdown "### Statistics";
        Metric "Total Samples" (VStr (format_thousands (len df))) None] ++
       class_metric "Classes Identified" df)%list in
    let closing :=
      [Markdown "### Classification"; Markdown "- **Class 0**: Major Thinning"] in
    match getitem df "slope" with
    | Ok s =>
        match mean s with
        | Ok m => ((upto ++ Metric "Avg Slope" (VFixed1 m "°") None :: closing)%list, Ok tt)
        | Raise e => (upto, Raise e)
        end
    | Raise _ => ((upto ++ closing)%list, Ok tt)
    end.
Proof.
  intros Hdf Hlen. apply Nat.ltb_lt in Hlen.
  unfold view_dem, mbind, St_bind, emit, lift, mret, St_ret.
  rewrite (available_Some _ _ _ Hdf), (subscript_Some _ _ _ Hdf), Hlen.
  rewrite class_metric_has.
  destruct (has_column "elev_change" df) eqn:Ee;
    [pose proof Ee as He; apply has_column_true in He as [x He]
    |pose proof (has_column_no_getitem _ _ Ee) as He];
    (destruct (has_column "class" df) eqn:Ec;
     [pose proof Ec as Hc; apply has_column_true in Hc as [c Hc]|]);
    (destruct (has_column "slope" df) eqn:Es;
     [pose proof Es as Hs; apply has_column_true in Hs as [s Hs];
      destruct (mean s) as [m|e] eqn:Em
     |pose proof (has_column_no_getitem _ _ Es) as Hs]);
    rewrite He, ?Hc, Hs, ?Em; reflexivity.
Qed.

Lemma view_dem_unavailable (data : gmap string DataFrame) :
  available "DEM" data = Ok false ->
  view_dem data data_analysis_intro =
    ((data_analysis_intro ++
      [Markdown "### Elevation Change Analysis (2000-2011)";
       Markdown "**What we measure:**";
       InfoBox "Run DEM.ipynb notebook to generate data for visualization";
       Markdown "### Statistics";
       Markdown "### Classification";
       Markdown "- **Class 0**: Major Thinning"])%list, Ok tt).
Proof.
  intros H. unfold view_dem, mbind, St_bind, emit, lift, mret, St_ret.
  rewrite H. reflexivity.
Qed.

Lemma view_sentinel1_unavailable (data : gmap string DataFrame) :
  available "Sentinel1" data = Ok false ->
  view_sentinel1 data data_analysis_intro =
    ((data_analysis_intro ++
      [Markdown "### SAR Backscatter Analysis (2021)";
       Markdown "**What we measure:**";
       InfoBox "Run Sentinel1.ipynb notebook to generate data for visualization";
       Markdown "### Statistics";
       Markdown "### SAR Bands";
       Markdown "- **VV**: Vertical transmit/receive"])%list, Ok tt).
Proof.
  intros H. unfold view_sentinel1, mbind, St_bind, emit, lift.
  rewrite H, (sentinel_statistics_unavailable _ _ _ H). reflexivity.
Qed.

Lemma view_sentinel2_unavailable (data : gmap string DataFrame) :
  available "Sentinel2" data = Ok false ->
  view_sentinel2 data data_analysis_intro =
    ((data_analysis_intro ++
      [Markdown "### Optical Spectral Analysis (2018-2023)";
       Markdown "**What we measure:**";
       InfoBox "Run Sentinel2.ipynb notebook to generate data for visualization";
       Markdown "### Statistics";
       Markdown "### Indices";
       Markdown "- **NDSI > 0.4**: Snow/Ice"])%list, Ok tt).
Proof.
  intros H. unfold view_sentinel2, mbind, St_bind, emit, lift.
  rewrite H, (sentinel_statistics_unavailable _ _ _ H). reflexivity.
Qed.

(** ** Column resolution *)

Lemma column_or_named name df i :
  name ∈ columns df -> column_or name df i = Ok name.
Proof.
  intros H. unfold column_or, has_column.
  by rewrite bool_decide_eq_true_2.
Qed.

Lemma column_or_raise name df i e :
  column_or name df i = Raise e ->
  e = IndexError /\ (name ∉ columns df) /\ (length (columns df) <= i)%nat.
Proof.
  unfold column_or, column_at. destruct (has_column name df) eqn:E; [discriminate|].
  apply has_column_false in E.
  destruct (columns df !! i) eqn:El; [discriminate|].
  intros [= <-]. split; [done|]. split; [done|]. by apply lookup_ge_None.
Qed.

Lemma column_or_raises_iff name df i :
  raises (column_or name df i) <-> (name ∉ columns df) /\ (length (columns df) <= i)%nat.
Proof.
  split.
  - intros [e He]. by apply column_or_raise in He as (_ & ? & ?).
  - intros [H1 H2]. exists IndexError. by apply column_or_out_of_range.
Qed.

Lemma mean_raise s e : mean s = Raise e -> e = TypeError.
Proof.
  unfold mean. destruct s as [xs|xs]; destruct (omap id xs); congruence.
Qed.

Lemma filter_class_metric label df :
  List.filter is_chart (class_metric label df) = [] /\
  List.filter is_info (class_metric label df) = [] /\
  List.filter is_warning (class_metric label df) = [] /\
  List.filter is_main (class_metric label df) = [] /\
  List.filter is_metric (class_metric label df) = class_metric label df.
Proof. unfold class_metric. by destruct (getitem df "class"). Qed.

Ltac filter_blocks :=
  simpl;
  repeat first
    [ rewrite List.filter_app
    | rewrite (proj1 (filter_class_metric _ _))
    | rewrite (proj1 (proj2 (filter_class_metric _ _)))
    | rewrite (proj1 (proj2 (proj2 (filter_class_metric _ _))))
    | rewrite (proj1 (proj2 (proj2 (proj2 (filter_class_metric _ _)))))
    | rewrite (proj2 (proj2 (proj2 (proj2 (filter_class_metric _ _))))) ];
  simpl; rewrite ?app_nil_r.

(** ** Scatter views *)

(** In the Sentinel-2 view, a non-empty table with at least two columns and
    neither an NDSI_2023 nor an NDVI_2023 column is plotted on its first
    two columns, with the two threshold lines at y = 0 and x = 0.4. *)
Theorem sentinel2_positional_fallback (is_image : string -> bool) (fs : gmap string node)
    (data : gmap string DataFrame) (df : DataFrame) (c0 c1 : string) :
  data !! "Sentinel2" = Some df ->
  (0 < len df)%nat ->
  columns df !! 0%nat = Some c0 ->
  columns df !! 1%nat = Some c1 ->
  "NDSI_2023" ∉ columns df ->
  "NDVI_2023" ∉ columns df ->
  exists blocks,
    run (render is_image fs "Data Analysis" "Sentinel-2 Optical" data) = (blocks, Ok tt) /\
    List.filter is_chart blocks =
      [PlotlyChart (Scatter "NDVI vs NDSI (2023)" df c0 c1 (color_of df)
                      [0%Q] [(4 # 10)%Q])].
Proof.
  intros Hdf Hlen H0 H1 Hx Hy.
  rewrite render_data_analysis_run.
  change (substring_in "DEM" "Sentinel-2 Optical") with false.
  change (substring_in "Sentinel-1" "Sentinel-2 Optical") with false.
  change (substring_in "Sentinel-2" "Sentinel-2 Optical") with true.
  cbv iota. rewrite (view_sentinel2_run _ _ Hdf Hlen).
  rewrite (column_or_fallback _ _ _ _ Hx H0), (column_or_fallback _ _ _ _ Hy H1).
  eexists. split; [reflexivity|]. by filter_blocks.
Qed.

Lemma sentinel2_positional_fallback_witness :
  exists blocks,
    run (render sample_is_image sample_fs "Data Analysis" "Sentinel-2 Optical" {[ "Sentinel2" := sample_two_columns ]})
      = (blocks, Ok tt) /\
    List.filter is_chart blocks =
      [PlotlyChart (Scatter "NDVI vs NDSI (2023)" sample_two_columns
                      "winter" "summer" None [0%Q] [(4 # 10)%Q])].
Proof.
  apply (sentinel2_positional_fallback sample_is_image sample_fs
           {[ "Sentinel2" := sample_two_columns ]} sample_two_columns "winter" "summer").
  - vm_compute; reflexivity.
  - vm_compute; lia.
  - vm_compute; reflexivity.
  - vm_compute; reflexivity.
  - intros H. apply list_elem_of_In in H. simpl in H. intuition discriminate.
  - intros H. apply list_elem_of_In in H. simpl in H. intuition discriminate.
Defined.

Lemma run_dem (is_image : string -> bool) (fs : gmap string node) data :
  run (render is_image fs "Data Analysis" "Digital Elevation Model (DEM)" data)
  = view_dem data data_analysis_intro.
Proof. reflexivity. Qed.

Lemma run_sentinel1 (is_image : string -> bool) (fs : gmap string node) data :
  run (render is_image fs "Data Analysis" "Sentinel-1 SAR" data)
  = view_sentinel1 data data_analysis_intro.
Proof. reflexivity. Qed.

Lemma run_sentinel2 (is_image : string -> bool) (fs : gmap string node) data :
  run (render is_image fs "Data Analysis" "Sentinel-2 Optical" data)
  = view_sentinel2 data data_analysis_intro.
Proof. reflexivity. Qed.

Lemma run_landsat8 (is_image : string -> bool) (fs : gmap string node) data :
  run (render is_image fs "Data Analysis" "Landsat-8 Thermal" data)
  = ((data_analysis_intro ++
      [Markdown "### Thermal Analysis (2017-2023)";
       Markdown "**What we measure:**";
       InfoBox "Landsat-8 analysis provides thermal insights into glacier melt patterns"])%list,
     Ok tt).
Proof. reflexivity. Qed.

(** The outcome and the chart of a scatter view, from how its two axes
    resolve. *)
Lemma scatter_view_run (is_image : string -> bool) (fs : gmap string node)
    modality key xn yn (data : gmap string DataFrame) df :
  (modality, key, xn, yn) ∈ scatter_views ->
  data !! key = Some df -> (0 < len df)%nat ->
  match column_or xn df 0, column_or yn df 1 with
  | Ok x, Ok y =>
      exists blocks title hlines vlines,
        run (render is_image fs "Data Analysis" modality data) = (blocks, Ok tt) /\
        List.filter is_chart blocks =
          [PlotlyChart (Scatter title df x y (color_of df) hlines vlines)] /\
        List.filter is_main blocks =
          [PlotlyChart (Scatter title df x y (color_of df) hlines vlines)] /\
        List.filter is_metric blocks =
          Metric "Total Samples" (VStr (format_thousands (len df))) None
            :: class_metric "Classes" df
  | Raise e, _ | Ok _, Raise e =>
      exists blocks,
        run (render is_image fs "Data Analysis" modality data) = (blocks, Raise e) /\
        List.filter is_main blocks = [] /\
        List.filter is_metric blocks = []
  end.
Proof.
  intros Hin Hdf Hlen.
  repeat (apply elem_of_cons in Hin as [[= -> -> -> ->]|Hin]);
    [rewrite run_sentinel1, (view_sentinel1_run _ _ Hdf Hlen)
    |rewrite run_sentinel2, (view_sentinel2_run _ _ Hdf Hlen)
    |by apply elem_of_nil in Hin];
    (destruct (column_or _ df 0) as [x|e];
     [destruct (column_or _ df 1) as [y|e]|]);
    try (eexists; split; [reflexivity|]; split; reflexivity);
    (do 4 eexists; split; [reflexivity|]; split; [|split]; by filter_blocks).
Qed.

(** A scatter view on a non-empty table raises exactly when an axis can
    be resolved neither by name nor by position: the x-axis column is not
    there and the table has no column, or the y-axis column is not there
    and the table has fewer than two columns.  It then raises IndexError
    and has emitted neither a chart nor a placeholder nor a metric; in
    every other case it ends normally. *)
Theorem scatter_view_raises_iff (is_image : string -> bool) (fs : gmap string node)
    (modality key xn yn : string) (data : gmap string DataFrame) (df : DataFrame) :
  (modality, key, xn, yn) ∈ scatter_views ->
  data !! key = Some df ->
  (0 < len df)%nat ->
  exists blocks r,
    run (render is_image fs "Data Analysis" modality data) = (blocks, r) /\
    (r = Ok tt \/ r = Raise IndexError) /\
    (r = Raise IndexError <->
       ((xn ∉ columns df) /\ columns df = []) \/
       ((yn ∉ columns df) /\ (length (columns df) < 2)%nat)) /\
    (r = Raise IndexError ->
       List.filter is_main blocks = [] /\ List.filter is_metric blocks = []).
Proof.
  intros Hin Hdf Hlen.
  pose proof (scatter_view_run is_image fs _ _ _ _ _ _ Hin Hdf Hlen) as H.
  destruct (column_or xn df 0) as [x|e] eqn:Ex.
  - destruct (column_or yn df 1) as [y|e] eqn:Ey.
    + destruct H as (blocks & t & h & v & Hrun & _).
      exists blocks, (Ok tt). split; [done|]. split; [by left|].
      split; [|discriminate]. split; [discriminate|].
      intros [[Hx Hc]|[Hy Hc]]; exfalso.
      * assert (raises (column_or xn df 0)) as [e He]
          by (apply column_or_raises_iff; split; [done|rewrite Hc; simpl; lia]).
        congruence.
      * assert (raises (column_or yn df 1)) as [e He]
          by (apply column_or_raises_iff; split; [done|lia]).
        congruence.
    + destruct H as (blocks & Hrun & Hmain & Hmetric).
      apply column_or_raise in Ey as (-> & Hy & Hc).
      exists blocks, (Raise IndexError). split; [done|]. split; [by right|].
      split; [|done]. split; [|done]. intros _. right. split; [done|lia].
  - destruct H as (blocks & Hrun & Hmain & Hmetric).
    apply column_or_raise in Ex as (-> & Hx & Hc).
    exists blocks, (Raise IndexError). split; [done|]. split; [by right|].
    split; [|done]. split; [|done]. intros _. left. split; [done|].
    destruct (columns df); [done|simpl in Hc; lia].
Qed.

Lemma scatter_view_raises_iff_witness :
  exists blocks r,
    run (render sample_is_image sample_fs "Data Analysis" "Sentinel-2 Optical" {[ "Sentinel2" := sample_one_column ]})
      = (blocks, r) /\
    (r = Ok tt \/ r = Raise IndexError).
Proof.
  destruct (scatter_view_raises_iff sample_is_image sample_fs "Sentinel-2 Optical" "Sentinel2" "NDSI_2023" "NDVI_2023"
              {[ "Sentinel2" := sample_one_column ]} sample_one_column)
    as (blocks & r & Hrun & Hr & _).
  - apply list_elem_of_In. simpl. auto.
  - vm_compute; reflexivity.
  - vm_compute; lia.
  - exists blocks, r. split; [exact Hrun|exact Hr].
Defined.

(** When both named axis columns are present in a non-empty table, the
    scatter view ends normally and plots exactly these two columns,
    wherever they stand among the columns; the points are coloured by the
    class column exactly when the table has one. *)
Theorem scatter_view_named_axes (is_image : string -> bool) (fs : gmap string node)
    (modality key xn yn : string) (data : gmap string DataFrame) (df : DataFrame) :
  (modality, key, xn, yn) ∈ scatter_views ->
  data !! key = Some df ->
  (0 < len df)%nat ->
  xn ∈ columns df ->
  yn ∈ columns df ->
  exists blocks title hlines vlines,
    run (render is_image fs "Data Analysis" modality data) = (blocks, Ok tt) /\
    List.filter is_chart blocks =
      [PlotlyChart (Scatter title df xn yn
                      (if bool_decide ("class" ∈ columns df) then Some "class" else None)
                      hlines vlines)].
Proof.
  intros Hin Hdf Hlen Hx Hy.
  pose proof (scatter_view_run is_image fs _ _ _ _ _ _ Hin Hdf Hlen) as H.
  rewrite (column_or_named _ _ _ Hx), (column_or_named _ _ _ Hy) in H.
  destruct H as (blocks & t & h & v & Hrun & Hchart & _).
  exists blocks, t, h, v. split; [done|]. exact Hchart.
Qed.

Lemma scatter_view_named_axes_witness :
  exists blocks title hlines vlines,
    run (render sample_is_image sample_fs "Data Analysis" "Sentinel-1 SAR" {[ "Sentinel1" := sample_named_axes ]})
      = (blocks, Ok tt) /\
    List.filter is_chart blocks =
      [PlotlyChart (Scatter title sample_named_axes "VV_1" "VV_2" (Some "class")
                      hlines vlines)].
Proof.
  apply (scatter_view_named_axes sample_is_image sample_fs "Sentinel-1 SAR" "Sentinel1" "VV_1" "VV_2"
           {[ "Sentinel1" := sample_named_axes ]} sample_named_axes).
  - apply list_elem_of_In. simpl. auto.
  - vm_compute; reflexivity.
  - vm_compute; lia.
  - apply list_elem_of_In. simpl. auto.
  - apply list_elem_of_In. simpl. auto.
Defined.

(** ** Unavailable datasets *)

(** For each of the three dataset-backed modalities, a missing or zero-row
    dataset makes the view end normally with exactly one informational
    placeholder, which names the notebook to run, and with no chart, no
    warning and no metric. *)
Theorem unavailable_dataset_view (is_image : string -> bool) (fs : gmap string node)
    (modality key notebook : string) (data : gmap string DataFrame) :
  (modality, key, notebook) ∈ dataset_views ->
  unavailable key data ->
  exists blocks,
    run (render is_image fs "Data Analysis" modality data) = (blocks, Ok tt) /\
    List.filter is_info blocks =
      [InfoBox ("Run " ++ notebook ++ ".ipynb notebook to generate data for visualization")] /\
    List.filter is_chart blocks = [] /\
    List.filter is_warning blocks = [] /\
    List.filter is_metric blocks = [].
Proof.
  intros Hin Hun. apply available_unavailable in Hun.
  repeat (apply elem_of_cons in Hin as [[= -> -> ->]|Hin]);
    [rewrite run_dem, (view_dem_unavailable _ Hun)
    |rewrite run_sentinel1, (view_sentinel1_unavailable _ Hun)
    |rewrite run_sentinel2, (view_sentinel2_unavailable _ Hun)
    |by apply elem_of_nil in Hin];
    eexists; repeat split; reflexivity.
Qed.

Lemma unavailable_dataset_view_witness :
  exists blocks,
    run (render sample_is_image sample_fs "Data Analysis" "Sentinel-2 Optical" {[ "DEM" := sample_dem ]})
      = (blocks, Ok tt) /\
    List.filter is_info blocks =
      [InfoBox "Run Sentinel2.ipynb notebook to generate data for visualization"] /\
    List.filter is_metric blocks = [].
Proof.
  destruct (unavailable_dataset_view sample_is_image sample_fs "Sentinel-2 Optical" "Sentinel2" "Sentinel2"
              {[ "DEM" := sample_dem ]})
    as (blocks & Hrun & Hinfo & _ & _ & Hmetric).
  - apply list_elem_of_In. simpl. auto.
  - left. vm_compute; reflexivity.
  - exists blocks. split; [exact Hrun|]. split; [exact Hinfo|exact Hmetric].
Defined.

(** ** The DEM view without an elevation-change column *)

(** A non-empty DEM table without an elev_change column gets a warning in
    place of the histogram, not the placeholder; the statistics are shown
    all the same: the row count, then the class and slope metrics for the
    columns that exist (a slope column being numeric). *)
Theorem dem_view_missing_elev_change (is_image : string -> bool) (fs : gmap string node)
    (data : gmap string DataFrame) (df : DataFrame) :
  data !! "DEM" = Some df ->
  (0 < len df)%nat ->
  "elev_change" ∉ columns df ->
  (forall s, getitem df "slope" = Ok s -> ~ raises (mean s)) ->
  exists blocks,
    run (render is_image fs "Data Analysis" "Digital Elevation Model (DEM)" data) = (blocks, Ok tt) /\
    List.filter is_main blocks =
      [WarningBox "Elevation change data not available in the dataset."] /\
    List.filter is_metric blocks =
      (Metric "Total Samples" (VStr (format_thousands (len df))) None
       :: class_metric "Classes Identified" df
       ++ match getitem df "slope" with
          | Ok s =>
              match mean s with
              | Ok m => [Metric "Avg Slope" (VFixed1 m "°") None]
              | Raise _ => []
              end
          | Raise _ => []
          end)%list.
Proof.
  intros Hdf Hlen He%has_column_false%has_column_no_getitem Hslope.
  rewrite run_dem, (view_dem_run _ _ Hdf Hlen), He. cbv zeta.
  destruct (getitem df "slope") as [s|e] eqn:Es.
  - destruct (mean s) as [m|e] eqn:Em.
    + eexists. split; [reflexivity|]. split; by filter_blocks.
    + exfalso. apply (Hslope s eq_refl). by exists e.
  - eexists. split; [reflexivity|]. split; by filter_blocks.
Qed.

Lemma dem_view_missing_elev_change_witness :
  exists blocks,
    run (render sample_is_image sample_fs "Data Analysis" "Digital Elevation Model (DEM)"
           {[ "DEM" := sample_dem_no_change ]}) = (blocks, Ok tt) /\
    List.filter is_main blocks =
      [WarningBox "Elevation change data not available in the dataset."] /\
    List.filter is_metric blocks =
      [Metric "Total Samples" (VStr "2") None;
       Metric "Avg Slope" (VFixed1 (Some (40 # 2)%Q) "°") None].
Proof.
  destruct (dem_view_missing_elev_change sample_is_image sample_fs
              {[ "DEM" := sample_dem_no_change ]} sample_dem_no_change)
    as (blocks & Hrun & Hmain & Hmetric).
  - vm_compute; reflexivity.
  - vm_compute; lia.
  - intros H. apply list_elem_of_In in H. simpl in H. intuition discriminate.
  - intros s Hs [e He]. vm_compute in Hs. injection Hs as <-.
    vm_compute in He. discriminate He.
  - exists blocks. split; [exact Hrun|]. split; [exact Hmain|exact Hmetric].
Defined.

(** ** How rendering can end *)

Lemma view_dem_outcome (data : gmap string DataFrame) :
  (view_dem data data_analysis_intro).2 = Ok tt \/
  (view_dem data data_analysis_intro).2 = Raise TypeError.
Proof.
  destruct (available_cases data "DEM") as [[_ H]|(df & Hdf & Hlen & _)].
  - rewrite (view_dem_unavailable _ H). by left.
  - rewrite (view_dem_run _ _ Hdf Hlen). cbv zeta.
    destruct (getitem df "slope") as [s|e]; [|by left].
    destruct (mean s) as [m|e] eqn:Em; [by left|].
    apply mean_raise in Em as ->. by right.
Qed.

Lemma view_sentinel1_outcome (data : gmap string DataFrame) :
  (view_sentinel1 data data_analysis_intro).2 = Ok tt \/
  (view_sentinel1 data data_analysis_intro).2 = Raise IndexError.
Proof.
  destruct (available_cases data "Sentinel1") as [[_ H]|(df & Hdf & Hlen & _)].
  - rewrite (view_sentinel1_unavailable _ H). by left.
  - rewrite (view_sentinel1_run _ _ Hdf Hlen).
    destruct (column_or "VV_1" df 0) as [x|e] eqn:Ex;
      [destruct (column_or "VV_2" df 1) as [y|e] eqn:Ey|]; [by left| |].
    + apply column_or_raise in Ey as (-> & _). by right.
    + apply column_or_raise in Ex as (-> & _). by right.
Qed.

Lemma view_sentinel2_outcome (data : gmap string DataFrame) :
  (view_sentinel2 data data_analysis_intro).2 = Ok tt \/
  (view_sentinel2 data data_analysis_intro).2 = Raise IndexError.
Proof.
  destruct (available_cases data "Sentinel2") as [[_ H]|(df & Hdf & Hlen & _)].
  - rewrite (view_sentinel2_unavailable _ H). by left.
  - rewrite (view_sentinel2_run _ _ Hdf Hlen).
    destruct (column_or "NDSI_2023" df 0) as [x|e] eqn:Ex;
      [destruct (column_or "NDVI_2023" df 1) as [y|e] eqn:Ey|]; [by left| |].
    + apply column_or_raise in Ey as (-> & _). by right.
    + apply column_or_raise in Ex as (-> & _). by right.
Qed.

(** *** The Satellite Imagery page *)

Lemma st_image_shown is_image fs path caption out :
  can_show is_image fs path = true ->
  st_image is_image fs path caption out = ((out ++ [Image path caption])%list, Ok tt).
Proof.
  unfold can_show, st_image. destruct (fs !! path) as [[c| |]|]; try discriminate.
  by intros ->.
Qed.

Lemma st_image_not_shown is_image fs path caption :
  can_show is_image fs path = false ->
  exists e, (e = MediaFileStorageError \/ e = UnidentifiedImageError) /\
    forall out, st_image is_image fs path caption out = (out, Raise e).
Proof.
  unfold can_show, st_image. destruct (fs !! path) as [[c| |]|].
  - intros ->. exists UnidentifiedImageError. split; [by right|done].
  - exists MediaFileStorageError. split; [by left|done].
  - exists MediaFileStorageError. split; [by left|done].
  - exists MediaFileStorageError. split; [by left|done].
Qed.

Lemma can_show_agree is_image (fs1 fs2 : gmap string node) path :
  fs1 !! path = fs2 !! path -> can_show is_image fs1 path = can_show is_image fs2 path.
Proof. unfold can_show. by intros ->. Qed.

Lemma st_image_agree is_image (fs1 fs2 : gmap string node) path caption :
  fs1 !! path = fs2 !! path ->
  st_image is_image fs1 path caption = st_image is_image fs2 path caption.
Proof. unfold st_image. by intros ->. Qed.

Lemma run_satellite_imagery is_image fs modality data :
  run (render is_image fs "Satellite Imagery" modality data)
  = run (page_satellite_imagery is_image fs).
Proof. reflexivity. Qed.

Ltac image_step H :=
  match goal with
  | |- context [st_image ?d ?f ?p ?c _] =>
      destruct (can_show d f p) eqn:H;
      [rewrite (st_image_shown d f p c _ H)
      |let e := fresh "e" in
       let He := fresh "He" in
       let Hr := fresh "Hr" in
       destruct (st_image_not_shown d f p c H) as (e & He & Hr); rewrite Hr]
  end.

(** The Satellite Imagery page ends normally exactly when each of its four
    image files can be opened and decoded; all four images and the pipeline
    chart are then shown.  Otherwise the page stops at the first image that
    cannot be shown, with MediaFileStorageError (the file cannot be
    opened) or UnidentifiedImageError (it does not decode), and the
    pipeline chart is not reached. *)
Theorem satellite_imagery_outcome
    (is_image : string -> bool) (fs : gmap string node)
    (modality : string) (data : gmap string DataFrame) :
  exists blocks r,
    run (render is_image fs "Satellite Imagery" modality data) = (blocks, r) /\
    (r = Ok tt <-> forall p, p ∈ image_paths -> can_show is_image fs p = true) /\
    (r = Ok tt \/ r = Raise MediaFileStorageError \/ r = Raise UnidentifiedImageError) /\
    (r = Ok tt ->
       length (List.filter is_image_block blocks) = 4%nat /\
       List.filter is_chart blocks
       = [PlotlyChart (StaticChart "sankey" "Data Processing Pipeline")]) /\
    (r <> Ok tt -> List.filter is_chart blocks = []).
Proof.
  rewrite run_satellite_imagery.
  unfold run, page_satellite_imagery, mbind, St_bind, emit.
  assert (forall p, p ∈ image_paths -> can_show is_image fs p = false ->
          ~ (forall q, q ∈ image_paths -> can_show is_image fs q = true)) as Hno.
  { intros p Hp Hf Hall. rewrite (Hall p Hp) in Hf. discriminate. }
  assert ("images/dem.jpg" ∈ image_paths) as P1 by (apply list_elem_of_In; simpl; auto).
  assert ("images/sentinel1.png" ∈ image_paths) as P2 by (apply list_elem_of_In; simpl; auto).
  assert ("images/sentinel2.png" ∈ image_paths) as P3 by (apply list_elem_of_In; simpl; auto).
  assert ("images/landsat.png" ∈ image_paths) as P4 by (apply list_elem_of_In; simpl; auto).
  assert (forall e : exn, e = MediaFileStorageError \/ e = UnidentifiedImageError ->
          (Raise e : result unit) <> Ok tt) as Hne by (intros e _; discriminate).
  image_step H1;
    [image_step H2;
     [image_step H3;
      [image_step H4|]|]|];
    do 2 eexists; (split; [reflexivity|]).
  - split.
    { split; [|done]. intros _ p Hp. apply list_elem_of_In in Hp. simpl in Hp.
      destruct Hp as [<-|[<-|[<-|[<-|[]]]]]; done. }
    split; [by left|]. split; [done|]. done.
  - split; [split; [discriminate|by intros ?%(Hno _ P4 H4)]|].
    split; [destruct He as [->| ->]; auto|]. split; [discriminate|done].
  - split; [split; [discriminate|by intros ?%(Hno _ P3 H3)]|].
    split; [destruct He as [->| ->]; auto|]. split; [discriminate|done].
  - split; [split; [discriminate|by intros ?%(Hno _ P2 H2)]|].
    split; [destruct He as [->| ->]; auto|]. split; [discriminate|done].
  - split; [split; [discriminate|by intros ?%(Hno _ P1 H1)]|].
    split; [destruct He as [->| ->]; auto|]. split; [discriminate|done].
Qed.

Lemma satellite_imagery_run_outcome is_image fs :
  (run (page_satellite_imagery is_image fs)).2 = Ok tt \/
  (run (page_satellite_imagery is_image fs)).2 = Raise MediaFileStorageError \/
  (run (page_satellite_imagery is_image fs)).2 = Raise UnidentifiedImageError.
Proof.
  unfold run, page_satellite_imagery, mbind, St_bind, emit.
  image_step H1;
    [image_step H2;
     [image_step H3;
      [image_step H4|]|]|];
    try (by left); destruct He as [->| ->]; auto.
Qed.

(** Rendering ends normally on the Overview, Machine Learning, Results &
    Insights and About pages and for a page outside the list, whatever the
    mapping and the filesystem hold.  The Data Analysis page can only end
    normally, with IndexError (a scatter view without enough columns) or
    with TypeError (the mean of a text column); the Satellite Imagery page
    can only end normally, with MediaFileStorageError or with
    UnidentifiedImageError (an image file that cannot be shown).  No page
    ever ends with KeyError: each subscript of the mapping and of a table is
    guarded by a membership test. *)
Theorem render_outcomes (is_image : string -> bool) (fs : gmap string node)
    (page modality : string) (data : gmap string DataFrame) :
  (run (render is_image fs page modality data)).2 = Ok tt \/
  (page = "Data Analysis" /\
   ((run (render is_image fs page modality data)).2 = Raise IndexError \/
    (run (render is_image fs page modality data)).2 = Raise TypeError)) \/
  (page = "Satellite Imagery" /\
   ((run (render is_image fs page modality data)).2 = Raise MediaFileStorageError \/
    (run (render is_image fs page modality data)).2 = Raise UnidentifiedImageError)).
Proof.
  destruct (String.eqb_spec page "Data Analysis") as [->|Hpage].
  - rewrite render_data_analysis_run.
    destruct (substring_in "DEM" modality).
    { destruct (view_dem_outcome data) as [H|H]; rewrite H; auto. }
    destruct (substring_in "Sentinel-1" modality).
    { destruct (view_sentinel1_outcome data) as [H|H]; rewrite H; auto. }
    destruct (substring_in "Sentinel-2" modality).
    { destruct (view_sentinel2_outcome data) as [H|H]; rewrite H; auto. }
    destruct (substring_in "Landsat-8" modality); by left.
  - destruct (String.eqb_spec page "Satellite Imagery") as [->|Hsat].
    + destruct (satellite_imagery_run_outcome is_image fs) as [H|[H|H]];
        rewrite run_satellite_imagery, H; auto.
    + left. unfold run, render.
      destruct (String.eqb_spec page "Data Analysis") as [->|_]; [done|].
      destruct (String.eqb_spec page "Satellite Imagery") as [->|_]; [done|].
      unfold page_overview, page_machine_learning, page_results_insights, page_about.
      repeat case_match; by rewrite ?emit_all_run.
Qed.

(** ** What a successful Data Analysis page shows *)

(** For each of the four modalities offered by the selector, a Data
    Analysis page that ends normally holds exactly one of: a chart, a
    warning, an informational block. *)
Theorem data_analysis_one_main_block (is_image : string -> bool) (fs : gmap string node)
    (modality : string) (data : gmap string DataFrame) (blocks : list Block) :
  modality ∈ modalities ->
  run (render is_image fs "Data Analysis" modality data) = (blocks, Ok tt) ->
  length (List.filter is_main blocks) = 1%nat.
Proof.
  intros Hin. unfold modalities in Hin.
  repeat (apply elem_of_cons in Hin as [->|Hin]); [| | | |by apply elem_of_nil in Hin].
  - rewrite run_dem.
    destruct (available_cases data "DEM") as [[_ H]|(df & Hdf & Hlen & _)].
    + rewrite (view_dem_unavailable _ H). by intros [= <-].
    + rewrite (view_dem_run _ _ Hdf Hlen). cbv zeta.
      destruct (getitem df "slope") as [s|e];
        [destruct (mean s) as [m|e]|];
        intros [= <-]; destruct (getitem df "elev_change"); by filter_blocks.
  - rewrite run_sentinel1.
    destruct (available_cases data "Sentinel1") as [[_ H]|(df & Hdf & Hlen & _)].
    + rewrite (view_sentinel1_unavailable _ H). by intros [= <-].
    + rewrite (view_sentinel1_run _ _ Hdf Hlen).
      destruct (column_or "VV_1" df 0) as [x|e];
        [destruct (column_or "VV_2" df 1) as [y|e]|];
        intros [= <-]; by filter_blocks.
  - rewrite run_sentinel2.
    destruct (available_cases data "Sentinel2") as [[_ H]|(df & Hdf & Hlen & _)].
    + rewrite (view_sentinel2_unavailable _ H). by intros [= <-].
    + rewrite (view_sentinel2_run _ _ Hdf Hlen).
      destruct (column_or "NDSI_2023" df 0) as [x|e];
        [destruct (column_or "NDVI_2023" df 1) as [y|e]|];
        intros [= <-]; by filter_blocks.
  - rewrite run_landsat8. by intros [= <-].
Qed.

Lemma data_analysis_one_main_block_witness :
  length (List.filter is_main
            (run (render sample_is_image sample_fs "Data Analysis" "Sentinel-1 SAR"
                    {[ "Sentinel1" := sample_named_axes ]})).1) = 1%nat.
Proof.
  apply (data_analysis_one_main_block sample_is_image sample_fs "Sentinel-1 SAR"
           {[ "Sentinel1" := sample_named_axes ]}).
  - apply list_elem_of_In. simpl. auto.
  - vm_compute; reflexivity.
Defined.

(** For each of the three dataset-backed modalities, when the dataset has
    rows and the page ends normally, the first metric is Total Samples and
    shows the row count of that dataset with thousands separators. *)
Theorem total_samples_metric (is_image : string -> bool) (fs : gmap string node)
    (modality key notebook : string) (data : gmap string DataFrame)
    (df : DataFrame) (blocks : list Block) :
  (modality, key, notebook) ∈ dataset_views ->
  data !! key = Some df ->
  (0 < len df)%nat ->
  run (render is_image fs "Data Analysis" modality data) = (blocks, Ok tt) ->
  head (List.filter is_metric blocks)
  = Some (Metric "Total Samples" (VStr (format_thousands (len df))) None).
Proof.
  intros Hin Hdf Hlen.
  repeat (apply elem_of_cons in Hin as [[= -> -> ->]|Hin]);
    [| | |by apply elem_of_nil in Hin].
  - rewrite run_dem, (view_dem_run _ _ Hdf Hlen). cbv zeta.
    destruct (getitem df "slope") as [s|e];
      [destruct (mean s) as [m|e]|];
      intros [= <-]; destruct (getitem df "elev_change"); by filter_blocks.
  - rewrite run_sentinel1, (view_sentinel1_run _ _ Hdf Hlen).
    destruct (column_or "VV_1" df 0) as [x|e];
      [destruct (column_or "VV_2" df 1) as [y|e]|];
      intros [= <-]; by filter_blocks.
  - rewrite run_sentinel2, (view_sentinel2_run _ _ Hdf Hlen).
    destruct (column_or "NDSI_2023" df 0) as [x|e];
      [destruct (column_or "NDVI_2023" df 1) as [y|e]|];
      intros [= <-]; by filter_blocks.
Qed.

Lemma total_samples_metric_witness :
  head (List.filter is_metric
          (run (render sample_is_image sample_fs "Data Analysis" "Digital Elevation Model (DEM)"
                  {[ "DEM" := sample_dem ]})).1)
  = Some (Metric "Total Samples" (VStr "3") None).
Proof.
  apply (total_samples_metric sample_is_image sample_fs "Digital Elevation Model (DEM)" "DEM" "DEM"
           {[ "DEM" := sample_dem ]} sample_dem).
  - apply list_elem_of_In. simpl. auto.
  - vm_compute; reflexivity.
  - vm_compute; lia.
  - vm_compute; reflexivity.
Defined.

(** ** Dispatch on the page and on the modality *)

Lemma prefix_spec (n h : string) :
  String.prefix n h = true <-> exists post : string, h = n ++ post.
Proof.
  revert h. induction n as [|a n IH]; intros [|b h]; simpl.
  - split; [intros _; by exists ""|done].
  - split; [intros _; by exists (String b h)|done].
  - split; [done|]. by intros [post [=]].
  - destruct (ascii_dec a b) as [->|N].
    + rewrite IH. split; intros [post E]; exists post.
      * by rewrite E.
      * simpl in E. by injection E.
    + split; [done|]. intros [post E]. simpl in E. by injection E.
Qed.

Lemma substring_in_spec (n h : string) :
  substring_in n h = true <-> occurs_in n h.
Proof.
  unfold occurs_in. induction h as [|b h IH].
  - cbn [substring_in]. destruct (String.prefix n "") eqn:E.
    + split; [|reflexivity]. intros _. apply prefix_spec in E as [post E].
      exists "", post. exact E.
    + split; [discriminate|]. intros (pre & post & Eh).
      destruct pre as [|c pre]; [|discriminate Eh]. simpl in Eh.
      assert (String.prefix n "" = true) as E' by (apply prefix_spec; eauto).
      congruence.
  - cbn [substring_in]. destruct (String.prefix n (String b h)) eqn:E.
    + split; [|reflexivity]. intros _. apply prefix_spec in E as [post E].
      exists "", post. exact E.
    + rewrite IH. split.
      * intros (pre & post & ->). exists (String b pre), post. reflexivity.
      * intros (pre & post & Eh). destruct pre as [|c pre].
        -- simpl in Eh.
           assert (String.prefix n (String b h) = true) as E'
             by (apply prefix_spec; eauto).
           congruence.
        -- simpl in Eh. injection Eh as _ ->. eauto.
Qed.

Lemma substring_in_false (n h : string) :
  substring_in n h = false <-> ~ occurs_in n h.
Proof.
  rewrite <- substring_in_spec. by destruct (substring_in n h).
Qed.

(** The view of the Data Analysis page is chosen by substring tests on the
    modality label, DEM first: a label in which DEM occurs gets the DEM view
    whatever else occurs in it, and a label in which none of the four
    markers occurs gets no view at all, only the page title, the selector
    and the rule (the chain has no else branch). *)
Theorem modality_dispatch (is_image : string -> bool) (fs : gmap string node)
    (data : gmap string DataFrame) :
  (forall modality,
     occurs_in "DEM" modality ->
     run (render is_image fs "Data Analysis" modality data)
     = run (render is_image fs "Data Analysis" "Digital Elevation Model (DEM)" data)) /\
  (forall modality,
     (forall marker, marker ∈ modality_markers -> ~ occurs_in marker modality) ->
     run (render is_image fs "Data Analysis" modality data) = (data_analysis_intro, Ok tt)).
Proof.
  split.
  - intros modality H%substring_in_spec.
    rewrite render_data_analysis_run, H. reflexivity.
  - intros modality H. rewrite render_data_analysis_run.
    assert (forall marker, marker ∈ modality_markers -> substring_in marker modality = false) as H'
      by (intros marker Hm; apply substring_in_false; auto).
    rewrite !H' by (apply list_elem_of_In; simpl; auto).
    reflexivity.
Qed.

Lemma modality_dispatch_witness :
  run (render sample_is_image sample_fs "Data Analysis" "Sentinel-1 and DEM" {[ "DEM" := sample_dem ]})
  = run (render sample_is_image sample_fs "Data Analysis" "Digital Elevation Model (DEM)" {[ "DEM" := sample_dem ]}) /\
  run (render sample_is_image sample_fs "Data Analysis" "Thermal" {[ "DEM" := sample_dem ]})
  = (data_analysis_intro, Ok tt).
Proof.
  destruct (modality_dispatch sample_is_image sample_fs {[ "DEM" := sample_dem ]}) as [H1 H2]. split.
  - apply H1. by exists "Sentinel-1 and ", "".
  - apply H2. intros marker Hm. apply substring_in_false.
    apply list_elem_of_In in Hm. simpl in Hm.
    destruct Hm as [<-|[<-|[<-|[<-|[]]]]]; vm_compute; reflexivity.
Defined.

Lemma data_analysis_view_appends modality data :
  appends (if substring_in "DEM" modality then view_dem data
           else if substring_in "Sentinel-1" modality then view_sentinel1 data
           else if substring_in "Sentinel-2" modality then view_sentinel2 data
           else if substring_in "Landsat-8" modality then view_landsat8
           else mret tt).
Proof. appends_tac. Qed.

Lemma satellite_imagery_nonempty is_image fs :
  (run (page_satellite_imagery is_image fs)).1 <> [].
Proof.
  unfold run, page_satellite_imagery, mbind, St_bind, emit.
  image_step H1;
    [image_step H2;
     [image_step H3;
      [image_step H4|]|]|];
    discriminate.
Qed.

(** A page identifier gets page-specific blocks exactly when it is one of
    the six options of the navigation radio: rendering emits nothing if
    and only if the identifier is outside that list. *)
Theorem render_nothing_iff (is_image : string -> bool) (fs : gmap string node)
    (page modality : string) (data : gmap string DataFrame) :
  (run (render is_image fs page modality data)).1 = [] <-> page ∉ pages.
Proof.
  split.
  - intros H Hin. unfold pages in Hin.
    repeat (apply elem_of_cons in Hin as [->|Hin]);
      [| | | | | |by apply elem_of_nil in Hin];
      try discriminate H.
    + rewrite render_data_analysis_run in H.
      rewrite (data_analysis_view_appends modality data data_analysis_intro) in H.
      discriminate H.
    + rewrite run_satellite_imagery in H.
      by apply (satellite_imagery_nonempty is_image fs).
  - intros H. by rewrite (render_other_page _ _ _ _ _ H).
Qed.

(** ** The whole script *)

Lemma dashboard_run (is_image : string -> bool) parse_csv fs page modality :
  run (dashboard parse_csv is_image fs page modality)
  = let out := run (render is_image fs page modality (loaded parse_csv fs)) in
    ((header_blocks ++ out.1 ++
      match out.2 with Ok _ => footer_blocks | Raise _ => [] end)%list, out.2).
Proof.
  unfold run, dashboard, mbind, St_bind.
  rewrite emit_all_run, load_model_data_loaded. unfold lift.
  rewrite (render_appends is_image fs page modality (loaded parse_csv fs) (_ ++ _)%list).
  destruct (render is_image fs page modality (loaded parse_csv fs) []) as [body [[]|e]];
    cbn [fst snd].
  - rewrite emit_all_run. by rewrite <- app_assoc.
  - by rewrite app_nil_r.
Qed.

(** Every run of the script starts with the header and sidebar blocks and
    continues with the blocks of the selected page for the mapping the
    loader returned.  The footer follows exactly when the page ended
    normally: an exception raised by a view ends the script at that point
    and the footer is not reached. *)
Theorem dashboard_structure (is_image : string -> bool)
    (parse_csv : string -> result DataFrame) (fs : gmap string node)
    (page modality : string) :
  exists data body r,
    load_model_data parse_csv fs = Ok data /\
    run (render is_image fs page modality data) = (body, r) /\
    run (dashboard parse_csv is_image fs page modality)
    = ((header_blocks ++ body ++
        match r with Ok _ => footer_blocks | Raise _ => [] end)%list, r).
Proof.
  exists (loaded parse_csv fs),
    (run (render is_image fs page modality (loaded parse_csv fs))).1,
    (run (render is_image fs page modality (loaded parse_csv fs))).2.
  split; [apply load_model_data_loaded|]. split.
  - by destruct (run (render is_image fs page modality (loaded parse_csv fs))).
  - apply dashboard_run.
Qed.

Lemma rerun_run parse_csv is_image fs page modality cache :
  rerun parse_csv is_image fs page modality cache
  = let data := match cache with
                | Some m => m
                | None => loaded parse_csv fs
                end in
    let out := run (render is_image fs page modality data) in
    (((header_blocks ++ out.1 ++
       match out.2 with Ok _ => footer_blocks | Raise _ => [] end)%list, out.2),
     Some data).
Proof.
  unfold rerun, cached_load_model_data. rewrite load_model_data_loaded.
  set (data := match cache with Some m => m | None => loaded parse_csv fs end).
  assert ((let '(loaded_data, cache') :=
             match cache with
             | Some data_dict => (Ok data_dict, Some data_dict)
             | None => (Ok (loaded parse_csv fs), Some (loaded parse_csv fs))
             end in
           (run (emit_all header_blocks ;;
                 d ← lift loaded_data;
                 render is_image fs page modality d ;; emit_all footer_blocks),
            cache'))
          = (run (emit_all header_blocks ;;
                  d ← lift (Ok data);
                  render is_image fs page modality d ;; emit_all footer_blocks),
             Some data)) as -> by (unfold data; by destruct cache).
  cbv zeta. f_equal.
  unfold run, mbind, St_bind. rewrite emit_all_run. unfold lift.
  rewrite (render_appends is_image fs page modality data (_ ++ _)%list).
  destruct (render is_image fs page modality data []) as [body [[]|e]];
    cbn [fst snd].
  - rewrite emit_all_run. by rewrite <- app_assoc.
  - by rewrite app_nil_r.
Qed.

(** On the Overview, Machine Learning, Results & Insights and About pages
    the whole dashboard is the same, and ends normally, for every state of
    the filesystem, every parser and every image decoder: no missing,
    corrupt or changed file can affect these four pages.  (The fifth static
    page, Satellite Imagery, opens four image files.) *)
Theorem dashboard_static_pages
    (page : string)
    (parse1 parse2 : string -> result DataFrame)
    (is_image1 is_image2 : string -> bool)
    (fs1 fs2 : gmap string node)
    (modality1 modality2 : string) :
  page ∈ ["Overview"; "Machine Learning"; "Results & Insights"; "About"] ->
  run (dashboard parse1 is_image1 fs1 page modality1)
  = run (dashboard parse2 is_image2 fs2 page modality2) /\
  (run (dashboard parse1 is_image1 fs1 page modality1)).2 = Ok tt.
Proof.
  intros H. rewrite !dashboard_run.
  repeat (apply elem_of_cons in H as [->|H]; [split; reflexivity|]).
  by apply elem_of_nil in H.
Qed.

Lemma dashboard_static_pages_witness :
  run (dashboard sample_parse sample_is_image sample_fs "About" "Sentinel-1 SAR")
  = run (dashboard (fun _ => Raise ParserError) (fun _ => false) ∅
           "About" "Landsat-8 Thermal").
Proof.
  apply (dashboard_static_pages "About" sample_parse (fun _ => Raise ParserError)
           sample_is_image (fun _ => false) sample_fs ∅
           "Sentinel-1 SAR" "Landsat-8 Thermal").
  apply list_elem_of_In. simpl. tauto.
Defined.

Lemma loaded_agree parse_csv (fs1 fs2 : gmap string node) :
  (forall key p, (key, p) ∈ dataset_files -> fs1 !! p = fs2 !! p) ->
  loaded parse_csv fs1 = loaded parse_csv fs2.
Proof.
  intros H. apply map_eq. intros k. rewrite !loaded_lookup.
  rewrite (loadable_agree parse_csv fs1 fs2 _ (H _ _ dem_file)).
  rewrite (loadable_agree parse_csv fs1 fs2 _ (H _ _ sentinel1_file)).
  rewrite (loadable_agree parse_csv fs1 fs2 _ (H _ _ sentinel2_file)).
  reflexivity.
Qed.

Lemma page_satellite_imagery_agree is_image (fs1 fs2 : gmap string node) :
  (forall p, p ∈ image_paths -> fs1 !! p = fs2 !! p) ->
  page_satellite_imagery is_image fs1 = page_satellite_imagery is_image fs2.
Proof.
  intros H. unfold page_satellite_imagery.
  rewrite (st_image_agree is_image fs1 fs2 "images/dem.jpg")
    by (apply H, list_elem_of_In; simpl; auto).
  rewrite (st_image_agree is_image fs1 fs2 "images/sentinel1.png")
    by (apply H, list_elem_of_In; simpl; auto).
  rewrite (st_image_agree is_image fs1 fs2 "images/sentinel2.png")
    by (apply H, list_elem_of_In; simpl; auto).
  rewrite (st_image_agree is_image fs1 fs2 "images/landsat.png")
    by (apply H, list_elem_of_In; simpl; auto).
  reflexivity.
Qed.

Lemma render_agree is_image (fs1 fs2 : gmap string node) page modality data :
  (forall p, p ∈ image_paths -> fs1 !! p = fs2 !! p) ->
  render is_image fs1 page modality data = render is_image fs2 page modality data.
Proof.
  intros H. unfold render. by rewrite (page_satellite_imagery_agree _ _ _ H).
Qed.

(** A run of the script reads the filesystem at seven fixed paths only:
    the four image files of the Satellite Imagery page and, when the
    loader's cache is empty, the three dataset files.  Two filesystem
    states that agree there give the same blocks, the same outcome and the
    same cache afterwards; in particular, once the cache is filled, a
    change of a dataset file is not seen by later runs. *)
Theorem rerun_reads_seven_paths
    (parse_csv : string -> result DataFrame) (is_image : string -> bool)
    (fs1 fs2 : gmap string node) (page modality : string)
    (cache : option (gmap string DataFrame)) :
  (forall p, p ∈ image_paths -> fs1 !! p = fs2 !! p) ->
  (cache = None -> forall key p, (key, p) ∈ dataset_files -> fs1 !! p = fs2 !! p) ->
  rerun parse_csv is_image fs1 page modality cache
  = rerun parse_csv is_image fs2 page modality cache.
Proof.
  intros Himg Hdata. rewrite !rerun_run. cbv zeta.
  rewrite (render_agree is_image fs1 fs2 page modality _ Himg).
  destruct cache as [m|]; [reflexivity|].
  by rewrite (loaded_agree parse_csv fs1 fs2 (Hdata eq_refl)).
Qed.

Lemma rerun_reads_seven_paths_witness :
  rerun sample_parse sample_is_image sample_fs "Data Analysis" "Sentinel-1 SAR"
    (Some {[ "DEM" := sample_dem ]})
  = rerun sample_parse sample_is_image
      (<[ "datasets/DEM/data.csv" := File "changed" ]> sample_fs)
      "Data Analysis" "Sentinel-1 SAR" (Some {[ "DEM" := sample_dem ]}).
Proof.
  apply rerun_reads_seven_paths.
  - intros p Hin. apply list_elem_of_In in Hin. simpl in Hin.
    destruct Hin as [<-|[<-|[<-|[<-|[]]]]]; vm_compute; reflexivity.
  - intros Hc. discriminate Hc.
Defined.

(** Running the script twice in a row, with the same selection and an
    unchanged filesystem, shows the same blocks and ends the same way both
    times, although the first run may fill the loader's cache; the second
    run leaves the cache as the first left it, and a first run on an empty
    cache is the script run top to bottom with the loader body executed. *)
Theorem rerun_idempotent
    (parse_csv : string -> result DataFrame) (is_image : string -> bool)
    (fs : gmap string node) (page modality : string)
    (cache : option (gmap string DataFrame)) :
  let first := rerun parse_csv is_image fs page modality cache in
  rerun parse_csv is_image fs page modality first.2 = first /\
  (cache = None ->
   first.1 = run (dashboard parse_csv is_image fs page modality) /\
   exists data, load_model_data parse_csv fs = Ok data /\ first.2 = Some data).
Proof.
  cbv zeta. rewrite !rerun_run. cbn [fst snd]. split.
  - reflexivity.
  - intros ->. rewrite dashboard_run. split; [reflexivity|].
    exists (loaded parse_csv fs). split; [apply load_model_data_loaded|reflexivity].
Qed.

(** End to end: when the file of a dataset is absent, cannot be read or
    parsed, or parses to a table without rows, the Data Analysis page of
    that dataset's modality is the header, a view with exactly one
    informational placeholder and no chart, and the footer; the script
    ends normally. *)
Theorem dashboard_missing_dataset (is_image : string -> bool)
    (parse_csv : string -> result DataFrame) (fs : gmap string node)
    (modality key notebook p : string) :
  (modality, key, notebook) ∈ dataset_views ->
  (key, p) ∈ dataset_files ->
  (forall df, read_csv parse_csv fs p = Ok df -> len df = 0%nat) ->
  exists blocks,
    run (dashboard parse_csv is_image fs "Data Analysis" modality)
    = ((header_blocks ++ blocks ++ footer_blocks)%list, Ok tt) /\
    List.filter is_info blocks =
      [InfoBox ("Run " ++ notebook ++ ".ipynb notebook to generate data for visualization")] /\
    List.filter is_chart blocks = [] /\
    List.filter is_metric blocks = [].
Proof.
  intros Hview Hfile Hread.
  assert (unavailable key (loaded parse_csv fs)) as Hun.
  { unfold unavailable. rewrite (dataset_files_lookup _ _ _ _ Hfile).
    destruct (loadable parse_csv fs p) as [df|] eqn:E; [|by left].
    right. exists df. split; [done|]. apply Hread.
    by rewrite read_csv_loadable, E. }
  apply available_unavailable in Hun. rewrite dashboard_run.
  repeat (apply elem_of_cons in Hview as [[= -> -> ->]|Hview]);
    [rewrite run_dem, (view_dem_unavailable _ Hun)
    |rewrite run_sentinel1, (view_sentinel1_unavailable _ Hun)
    |rewrite run_sentinel2, (view_sentinel2_unavailable _ Hun)
    |by apply elem_of_nil in Hview];
    eexists; (split; [reflexivity|]); repeat split; reflexivity.
Qed.

Lemma dashboard_missing_dataset_witness :
  exists blocks,
    run (dashboard sample_parse sample_is_image sample_fs "Data Analysis" "Digital Elevation Model (DEM)")
    = ((header_blocks ++ blocks ++ footer_blocks)%list, Ok tt) /\
    List.filter is_info blocks =
      [InfoBox "Run DEM.ipynb notebook to generate data for visualization"].
Proof.
  destruct (dashboard_missing_dataset sample_is_image sample_parse sample_fs
              "Digital Elevation Model (DEM)" "DEM" "DEM" "datasets/DEM/data.csv")
    as (blocks & Hrun & Hinfo & _).
  - apply list_elem_of_In. simpl. auto.
  - apply dem_file.
  - intros df H. vm_compute in H. discriminate H.
  - exists blocks. split; [exact Hrun|exact Hinfo].
Defined.

(** ** Metrics *)

Lemma dedup_by_length {A} (eqb : A -> A -> bool) (l : list A) :
  (length (dedup_by eqb l) <= length l)%nat.
Proof.
  induction l as [|x l IH]; cbn [dedup_by length]; [reflexivity|].
  destruct (existsb (eqb x) l); cbn [length].
  - by apply Nat.le_le_succ_r.
  - by apply (proj1 (Nat.succ_le_mono _ _)).
Qed.

Lemma omap_id_length {A} (l : list (option A)) :
  (length (omap id l) <= length l)%nat.
Proof.
  induction l as [|[x|] l IH]; [reflexivity| |].
  - change (S (length (omap id l)) <= S (length l))%nat.
    by apply (proj1 (Nat.succ_le_mono _ _)).
  - change (length (omap id l) <= S (length l))%nat.
    by apply Nat.le_le_succ_r.
Qed.

Lemma nunique_le (s : Series) : (nunique s <= series_len s)%nat.
Proof.
  destruct s as [xs|xs]; simpl;
    (etransitivity; [apply dedup_by_length|apply omap_id_length]).
Qed.

Lemma assoc_elem_of c (l : list (string * Series)) s :
  assoc c l = Some s -> (c, s) ∈ l.
Proof.
  induction l as [|[k t] l IH]; simpl; [discriminate|].
  destruct (String.eqb_spec c k) as [->|N].
  - intros [= ->]. apply list_elem_of_here.
  - intros H. apply list_elem_of_further. auto.
Qed.

Lemma getitem_series_len df c s :
  well_formed df -> getitem df c = Ok s -> series_len s = len df.
Proof.
  intros [_ Hwf] H. unfold getitem in H.
  destruct (assoc c (df_data df)) as [t|] eqn:E; [|discriminate].
  injection H as ->. apply assoc_elem_of in E.
  rewrite Forall_forall in Hwf. exact (Hwf _ E).
Qed.

Lemma class_metric_bounded lab df label n delta :
  well_formed df ->
  Metric label (VInt n) delta ∈ class_metric lab df -> (n <= len df)%nat.
Proof.
  intros Hwf. unfold class_metric.
  destruct (getitem df "class") as [s|e] eqn:E.
  - intros [= _ -> _]%list_elem_of_singleton.
    rewrite <- (getitem_series_len _ _ _ Hwf E). apply nunique_le.
  - by intros ?%elem_of_nil.
Qed.

Ltac metric_cases H :=
  repeat first
    [ apply elem_of_app in H as [H|H]
    | apply elem_of_cons in H as [H|H]
    | apply elem_of_nil in H; destruct H ];
  try discriminate H.

(** On a Data Analysis page, every count shown by a metric (the number of
    classes) is at most the number of rows of the view's table, provided
    the table is well formed: no column is longer than the index. *)
Theorem class_count_bounded (is_image : string -> bool) (fs : gmap string node)
    (modality key notebook : string) (data : gmap string DataFrame)
    (df : DataFrame) (label : string) (n : nat) (delta : option string) :
  (modality, key, notebook) ∈ dataset_views ->
  data !! key = Some df ->
  well_formed df ->
  Metric label (VInt n) delta ∈ (run (render is_image fs "Data Analysis" modality data)).1 ->
  (n <= len df)%nat.
Proof.
  intros Hin Hdf Hwf.
  destruct (available_cases data key) as [[_ Hun]|(df' & Hdf' & Hlen & _)].
  - repeat (apply elem_of_cons in Hin as [[= -> -> ->]|Hin]);
      [rewrite run_dem, (view_dem_unavailable _ Hun)
      |rewrite run_sentinel1, (view_sentinel1_unavailable _ Hun)
      |rewrite run_sentinel2, (view_sentinel2_unavailable _ Hun)
      |by apply elem_of_nil in Hin];
      intros H; simpl in H; metric_cases H.
  - assert (df' = df) as -> by congruence.
    repeat (apply elem_of_cons in Hin as [[= -> -> ->]|Hin]);
      [rewrite run_dem, (view_dem_run _ _ Hdf Hlen); cbv zeta;
       destruct (getitem df "elev_change") as [x0|e0];
       (destruct (getitem df "slope") as [s|e1]; [destruct (mean s) as [m|e2]|])
      |rewrite run_sentinel1, (view_sentinel1_run _ _ Hdf Hlen);
       (destruct (column_or "VV_1" df 0) as [x|e];
        [destruct (column_or "VV_2" df 1) as [y|e]|])
      |rewrite run_sentinel2, (view_sentinel2_run _ _ Hdf Hlen);
       (destruct (column_or "NDSI_2023" df 0) as [x|e];
        [destruct (column_or "NDVI_2023" df 1) as [y|e]|])
      |by apply elem_of_nil in Hin];
      intros H; cbn [fst] in H; metric_cases H;
      by apply (class_metric_bounded _ _ _ _ _ Hwf H).
Qed.

Lemma class_count_bounded_witness : (2 <= len sample_dem)%nat.
Proof.
  apply (class_count_bounded sample_is_image sample_fs "Digital Elevation Model (DEM)" "DEM" "DEM"
           {[ "DEM" := sample_dem ]} sample_dem "Classes Identified" 2 None).
  - apply list_elem_of_In. simpl. auto.
  - vm_compute; reflexivity.
  - split.
    + repeat constructor; intros H; apply list_elem_of_In in H; simpl in H;
        intuition discriminate.
    + repeat constructor.
  - apply list_elem_of_In. vm_compute.
    repeat (first [left; reflexivity | right]).
Defined.

Lemma digits_not_comma (d : Decimal.uint) :
  forallb not_comma (list_ascii_of_string (NilEmpty.string_of_uint d)) = true.
Proof. induction d; simpl; auto. Qed.

Lemma filter_commas (l : list ascii) (k : nat) :
  forallb not_comma l = true -> List.filter not_comma (commas l k) = l.
Proof.
  revert k. induction l as [|d l IH]; intros k; [reflexivity|].
  cbn [forallb commas]. intros [Hd Hl]%andb_prop.
  destruct (k =? 3)%nat; cbn [List.filter]; rewrite ?Hd.
  - change (not_comma ","%char) with false. cbv iota. by rewrite IH.
  - by rewrite IH.
Qed.

Lemma forallb_rev {A} (f : A -> bool) (l : list A) :
  forallb f (rev l) = forallb f l.
Proof.
  induction l as [|x l IH]; [reflexivity|].
  cbn [rev forallb]. rewrite forallb_app, IH. cbn [forallb].
  by rewrite andb_true_r, andb_comm.
Qed.

Lemma format_thousands_below_1000 :
  forallb (fun n => String.eqb (format_thousands n) (decimal n)) (seq 0 1000) = true.
Proof. vm_compute. reflexivity. Qed.

(** The value of the Total Samples metric is the decimal numeral of the row
    count with separators added: removing the commas gives back the
    numeral, and below one thousand there is no comma at all. *)
Theorem format_thousands_numeral (n : nat) :
  strip_commas (format_thousands n) = decimal n /\
  ((n < 1000)%nat -> format_thousands n = decimal n).
Proof.
  split.
  - unfold strip_commas, format_thousands, decimal.
    rewrite list_ascii_of_string_of_list_ascii.
    change (fun c => negb (Ascii.eqb c ","%char)) with not_comma.
    rewrite filter_rev, filter_commas, rev_involutive.
    + apply string_of_list_ascii_of_string.
    + rewrite forallb_rev. apply digits_not_comma.
  - intros Hn. pose proof format_thousands_below_1000 as H.
    rewrite forallb_forall in H. apply String.eqb_eq, H.
    apply in_seq. split; [apply Nat.le_0_l|exact Hn].
Qed.

(** ** When the DEM view raises *)

Lemma mean_raises_iff (s : Series) :
  raises (mean s) <-> exists xs v, s = StrCol xs /\ Some v ∈ xs.
Proof.
  split.
  - intros [e He]. destruct s as [xs|xs]; simpl in He.
    + destruct (omap id xs); discriminate.
    + destruct (omap id xs) as [|v l] eqn:E; [discriminate|].
      exists xs, v. split; [done|].
      assert (v ∈ omap id xs) as Hv by (rewrite E; apply list_elem_of_here).
      apply list_elem_of_omap in Hv as (o & Ho & Hv). simpl in Hv. by subst o.
  - intros (xs & v & -> & Hv). exists TypeError. simpl.
    destruct (omap id xs) as [|w l] eqn:E; [|done].
    assert (v ∈ omap id xs) as Hin
      by (apply list_elem_of_omap; exists (Some v); by split).
    rewrite E in Hin. by apply elem_of_nil in Hin.
Qed.

(** The DEM view on a non-empty table raises exactly when the table has a
    slope column that holds text (a string column with at least one cell
    present).  It then raises TypeError after the chart or warning and the
    Total Samples metric have been emitted; in every other case it ends
    normally. *)
Theorem dem_view_raises_iff (is_image : string -> bool) (fs : gmap string node)
    (data : gmap string DataFrame) (df : DataFrame) :
  data !! "DEM" = Some df ->
  (0 < len df)%nat ->
  exists blocks r,
    run (render is_image fs "Data Analysis" "Digital Elevation Model (DEM)" data) = (blocks, r) /\
    (r = Ok tt \/ r = Raise TypeError) /\
    (r = Raise TypeError <->
       exists xs v, getitem df "slope" = Ok (StrCol xs) /\ Some v ∈ xs) /\
    (r = Raise TypeError ->
       length (List.filter is_main blocks) = 1%nat /\
       head (List.filter is_metric blocks)
       = Some (Metric "Total Samples" (VStr (format_thousands (len df))) None)).
Proof.
  intros Hdf Hlen. rewrite run_dem, (view_dem_run _ _ Hdf Hlen). cbv zeta.
  destruct (getitem df "slope") as [s|e1] eqn:Es.
  - destruct (mean s) as [m|e2] eqn:Em.
    + do 2 eexists. split; [reflexivity|]. split; [by left|].
      split; [|discriminate]. split; [discriminate|].
      intros (xs & v & [= ->] & Hv). exfalso.
      assert (raises (mean (StrCol xs))) as [e He]
        by (apply mean_raises_iff; eauto).
      congruence.
    + pose proof (mean_raise _ _ Em) as ->.
      do 2 eexists. split; [reflexivity|]. split; [by right|]. split.
      * split; [|done]. intros _.
        assert (raises (mean s)) as (xs & v & -> & Hv)%mean_raises_iff
          by (by exists TypeError).
        eauto.
      * intros _. destruct (getitem df "elev_change"); split; by filter_blocks.
  - do 2 eexists. split; [reflexivity|]. split; [by left|].
    split; [|discriminate]. split; [discriminate|].
    by intros (xs & v & [=] & _).
Qed.

Lemma dem_view_raises_iff_witness :
  exists blocks r,
    run (render sample_is_image sample_fs "Data Analysis" "Digital Elevation Model (DEM)"
           {[ "DEM" := sample_dem_text_slope ]}) = (blocks, r) /\
    (r = Ok tt \/ r = Raise TypeError).
Proof.
  destruct (dem_view_raises_iff sample_is_image sample_fs {[ "DEM" := sample_dem_text_slope ]} sample_dem_text_slope)
    as (blocks & r & Hrun & Hr & _).
  - vm_compute; reflexivity.
  - vm_compute; lia.
  - exists blocks, r. split; [exact Hrun|exact Hr].
Defined.

(** * The page code over the shared mapping *)

Lemma matches_on_queue {A} (m : St A) : matches (Session.on_queue m) (fun _ => m).
Proof.
  intros data q. unfold Session.on_queue. cbn [Session.queue Session.mapping].
  by destruct (m q).
Qed.

Lemma matches_available key :
  matches (Session.available key) (fun data => lift (available key data)).
Proof.
  intros data q.
  unfold Session.available, Session.contains_key, Session.subscript,
    available, contains_key, subscript, lift, mbind, Session.Sm_bind, result_bind,
    mret, Session.Sm_ret, result_ret.
  cbn [Session.queue Session.mapping fst snd].
  destruct (data !! key) as [df|] eqn:E.
  - rewrite !bool_decide_eq_true_2 by eauto. cbn [Session.mapping].
    by rewrite E.
  - by rewrite !bool_decide_eq_false_2 by (by intros [??]).
Qed.

Lemma matches_sentinel_statistics key :
  matches (Session.sentinel_statistics key) (sentinel_statistics key).
Proof.
  intros data q.
  unfold Session.sentinel_statistics, sentinel_statistics.
  unfold mbind at 1. unfold Session.Sm_bind. rewrite (matches_available key data q).
  unfold mbind at 4. unfold St_bind at 1.
  unfold lift at 1 2 3. cbn [fst snd].
  destruct (available_cases data key) as [[_ ->]|(df & Hdf & Hlen & ->)].
  - reflexivity.
  - unfold mbind, Session.Sm_bind, St_bind, Session.subscript, Session.emit,
      Session.on_queue, Session.lift, lift, emit, subscript,
      mret, Session.Sm_ret, St_ret.
    cbn [Session.queue Session.mapping fst snd]. rewrite Hdf.
    destruct (has_column "class" df); [|reflexivity].
    by destruct (getitem df "class").
Qed.

Lemma matches_mret {A} (a : A) : matches (mret a) (fun _ => mret a).
Proof. intros data q. reflexivity. Qed.

Lemma matches_emit (b : Block) : matches (Session.emit b) (fun _ => emit b).
Proof. apply matches_on_queue. Qed.

Lemma matches_lift {A} (r : result A) : matches (Session.lift r) (fun _ => lift r).
Proof. intros data q. reflexivity. Qed.

Lemma matches_subscript key :
  matches (Session.subscript key) (fun data => lift (subscript data key)).
Proof. intros data q. reflexivity. Qed.

Lemma matches_bind {A B} (m : Session.Sm A) (k : A -> Session.Sm B)
    (f : gmap string DataFrame -> St A) (k' : A -> gmap string DataFrame -> St B) :
  matches m f -> (forall a, matches (k a) (k' a)) ->
  matches (m ≫= k) (fun data => f data ≫= fun a => k' a data).
Proof.
  intros Hm Hk data q. unfold mbind, Session.Sm_bind, St_bind.
  rewrite (Hm data q). destruct (f data q) as [q' [a|e]]; cbn [fst snd].
  - apply Hk.
  - reflexivity.
Qed.

Ltac matches_tac :=
  repeat first
    [ progress intros
    | apply matches_bind
    | apply matches_emit
    | apply matches_lift
    | apply matches_mret
    | apply matches_available
    | apply matches_subscript
    | apply matches_sentinel_statistics
    | apply matches_on_queue
    | match goal with
      | |- matches (if ?b then _ else _) _ => destruct b
      end ].

Lemma matches_view_dem : matches Session.view_dem view_dem.
Proof. unfold Session.view_dem, view_dem. matches_tac. Qed.

Lemma matches_view_sentinel1 : matches Session.view_sentinel1 view_sentinel1.
Proof. unfold Session.view_sentinel1, view_sentinel1. matches_tac. Qed.

Lemma matches_view_sentinel2 : matches Session.view_sentinel2 view_sentinel2.
Proof. unfold Session.view_sentinel2, view_sentinel2. matches_tac. Qed.

Lemma matches_page_data_analysis modality :
  matches (Session.page_data_analysis modality) (page_data_analysis modality).
Proof.
  unfold Session.page_data_analysis, page_data_analysis.
  matches_tac;
    first [apply matches_view_dem | apply matches_view_sentinel1
          | apply matches_view_sentinel2].
Qed.

Lemma matches_render is_image fs page modality :
  matches (Session.render is_image fs page modality) (render is_image fs page modality).
Proof.
  unfold Session.render, render.
  destruct (String.eqb page "Overview"); [apply matches_on_queue|].
  destruct (String.eqb page "Data Analysis"); [apply matches_page_data_analysis|].
  matches_tac.
Qed.

Lemma render_read_only is_image fs page modality :
  Session.read_only (Session.render is_image fs page modality).
Proof.
  intros data.
  exists (render is_image fs page modality data []).1,
         (render is_image fs page modality data []).2.
  intros q. rewrite (matches_render is_image fs page modality data q).
  by rewrite (render_appends is_image fs page modality data q).
Qed.

(** An assignment to the mapping is not read-only: the property is one of
    the page code, not of every script over the session state. *)
Lemma setitem_not_read_only (k : string) (df : DataFrame) :
  ~ Session.read_only (Session.setitem k df).
Proof.
  intros H. destruct (H ∅) as (bs & r & Hq). specialize (Hq []).
  apply (f_equal (fun p => Session.mapping p.1 !! k)) in Hq.
  unfold Session.setitem in Hq. cbn [fst Session.mapping Session.queue] in Hq.
  by rewrite lookup_insert_eq, lookup_empty in Hq.
Qed.

(** C8: the page code runs on a mapping it shares with its caller and on
    the element queue.  For every request and mapping, a call leaves the
    mapping exactly as it was and appends to the queue the block sequence,
    with the outcome, that the renderer gives for this request and mapping,
    whatever had been rendered before; hence a second call with the same
    pair appends the same blocks again. *)
Theorem render_keeps_no_state
    (is_image : string -> bool) (fs : gmap string node)
    (page modality : string) (data : gmap string DataFrame) :
  exists (bs : list Block) (r : result unit),
    run (render is_image fs page modality data) = (bs, r) /\
    (forall q,
       Session.render is_image fs page modality (Session.State data q)
       = (Session.State data (q ++ bs)%list, r)) /\
    (r = Ok tt ->
     forall q,
       (Session.render is_image fs page modality ;;
        Session.render is_image fs page modality) (Session.State data q)
       = (Session.State data (q ++ bs ++ bs)%list, Ok tt)).
Proof.
  pose proof (matches_render is_image fs page modality data) as Hm.
  pose proof (render_appends is_image fs page modality data) as Ha.
  unfold run.
  destruct (render is_image fs page modality data []) as [bs r] eqn:E.
  exists bs, r. split; [reflexivity|].
  assert (forall q,
            Session.render is_image fs page modality (Session.State data q)
            = (Session.State data (q ++ bs)%list, r)) as Hq.
  { intros q. rewrite (Hm q), (Ha q), E. reflexivity. }
  split; [exact Hq|].
  intros -> q. unfold mbind, Session.Sm_bind.
  rewrite (Hq q), (Hq (q ++ bs)%list). by rewrite app_assoc.
Qed.
